(** * Vector editor: the shape collection behind the command line

    A shallow embedding of [main.py] (class [VectorEditor]) together with
    the part of the Python runtime it relies on: [str.split], [str.lower],
    [str.capitalize], [int(str)] and [float(str)].

    Conventions.
    - A Python [str] is a Rocq [string]; the model follows Python on ASCII
      text.  Characters above 127 are carried along unchanged: they are
      neither digits, nor white space, nor letters with a case.
    - A Python [int] is a [Z]; a Python [float] is an IEEE 754 binary64
      value, written as a [spec_float] with [prec = 53], [emax = 1024].
    - [self.shapes] is a [gmap Z shape]; [self.next_id] is a [Z].
    - The shape classes ([shape.py], [shapes_2d.py], [shapes_3d.py]) are
      imported by [main.py]; the editor is written against an interface
      ([ShapeLib]) and an instance of it is modelled from the specification. *)

From Stdlib Require Import ZArith String Ascii List Sorted SpecFloat Lia.
From stdpp Require Import base option list sorting gmap strings pretty.

Local Open Scope string_scope.
Local Open Scope list_scope.
Local Open Scope Z_scope.

(** ** Python text primitives *)

Module PyStr.

(** [str.isspace] on one ASCII character: TAB, LF, VT, FF, CR, the four
    separators FS, GS, RS, US and the space. *)
Definition is_space (c : ascii) : bool :=
  let n := nat_of_ascii c in
  ((9 <=? n)%nat && (n <=? 13)%nat) || ((28 <=? n)%nat && (n <=? 32)%nat).

Definition is_digit (c : ascii) : bool :=
  let n := nat_of_ascii c in (48 <=? n)%nat && (n <=? 57)%nat.

Definition digit_value (c : ascii) : Z := Z.of_nat (nat_of_ascii c) - 48.

Definition lower_char (c : ascii) : ascii :=
  let n := nat_of_ascii c in
  if (65 <=? n)%nat && (n <=? 90)%nat then ascii_of_nat (n + 32) else c.

Definition upper_char (c : ascii) : ascii :=
  let n := nat_of_ascii c in
  if (97 <=? n)%nat && (n <=? 122)%nat then ascii_of_nat (n - 32) else c.

Definition chars (s : string) : list ascii := list_ascii_of_string s.
Definition text (l : list ascii) : string := string_of_list_ascii l.

(** [s.lower()] *)
Definition lower (s : string) : string := text (map lower_char (chars s)).

(** [s.capitalize()]: first character upper case, the rest lower case. *)
Definition capitalize (s : string) : string :=
  match chars s with
  | [] => ""
  | c :: cs => text (upper_char c :: map lower_char cs)
  end.

Fixpoint lstrip (l : list ascii) : list ascii :=
  match l with
  | c :: l' => if is_space c then lstrip l' else l
  | [] => []
  end.

Definition strip_chars (l : list ascii) : list ascii :=
  rev (lstrip (rev (lstrip l))).

(** [s.strip()] *)
Definition strip (s : string) : string := text (strip_chars (chars s)).

(** [s.split()] without a separator: the maximal runs of characters that
    are not white space, in order; no empty token.  [cur] is the token
    being read, reversed. *)
Fixpoint split_aux (cur : list ascii) (l : list ascii) : list string :=
  match l with
  | [] => match cur with [] => [] | _ => [text (rev cur)] end
  | c :: l' =>
      if is_space c
      then match cur with
           | [] => split_aux [] l'
           | _ => text (rev cur) :: split_aux [] l'
           end
      else split_aux (c :: cur) l'
  end.

Definition split (s : string) : list string := split_aux [] (chars s).

(** [str(n)] for an [int]: the decimal numeral. *)
Definition str_of_int (n : Z) : string := pretty n.

End PyStr.

(** ** Python numbers *)

Module PyNum.
Import PyStr.

(** A value of the numeric tower as the editor produces it: the result of
    [int(token)] or of [float(token)]. *)
Inductive pyval :=
| VInt (n : Z)
| VFloat (f : spec_float).

#[global] Instance spec_float_eq_dec : EqDecision spec_float.
Proof. solve_decision. Defined.
#[global] Instance pyval_eq_dec : EqDecision pyval.
Proof. solve_decision. Defined.

(** White space as [int] and [float] see it on ASCII text, the C
    library's [isspace]: TAB, LF, VT, FF, CR and the space.  The
    separators FS, GS, RS and US, which [str.strip] and [str.split] take
    for white space, are not among them. *)
Definition is_c_space (c : ascii) : bool :=
  let n := nat_of_ascii c in
  ((9 <=? n)%nat && (n <=? 13)%nat) || (n =? 32)%nat.

Fixpoint lstrip_c (l : list ascii) : list ascii :=
  match l with
  | c :: l' => if is_c_space c then lstrip_c l' else l
  | [] => []
  end.

(** The text between the white space [int] and [float] skip at both
    ends. *)
Definition strip_c_chars (l : list ascii) : list ascii :=
  rev (lstrip_c (rev (lstrip_c l))).

(** The longest run of digits at the front of [l]: the value of the
    digits read after [acc], their count added to [cnt], and the unread
    rest. *)
Fixpoint digitpart_from (acc : Z) (cnt : nat) (l : list ascii)
  : Z * nat * list ascii :=
  match l with
  | c :: l' =>
      if is_digit c then digitpart_from (10 * acc + digit_value c) (S cnt) l'
      else (acc, cnt, l)
  | [] => (acc, cnt, [])
  end.

(** The grammar's [digitpart] is [digit (["_"] digit)*]: an underscore
    may stand only between two digits.  The interpreter checks this and
    removes the underscores before it reads the number; [None] when an
    underscore is misplaced.  [prev_digit] tells whether the character
    before [l] is a digit. *)
Fixpoint drop_inner_underscores (prev_digit : bool) (l : list ascii)
  : option (list ascii) :=
  match l with
  | [] => Some []
  | c :: l' =>
      if Ascii.eqb c "_"
      then match l' with
           | d :: _ => if prev_digit && is_digit d
                       then drop_inner_underscores false l'
                       else None
           | [] => None
           end
      else option_map (cons c) (drop_inner_underscores (is_digit c) l')
  end.

Definition digitpart (l : list ascii) : Z * nat * list ascii :=
  digitpart_from 0 0 l.

(** Optional sign: [true] for a minus. *)
Definition sign (l : list ascii) : bool * list ascii :=
  match l with
  | c :: l' =>
      if Ascii.eqb c "-" then (true, l')
      else if Ascii.eqb c "+" then (false, l')
      else (false, l)
  | [] => (false, [])
  end.

(** The interpreter's default limit on the number of digits of a decimal
    [int] conversion ([sys.get_int_max_str_digits()]); longer numerals
    raise [ValueError]. *)
Definition int_max_str_digits : nat := 4300.

(** [int(s)] for a [str] in base 10.  [None] stands for [ValueError].
    White space around the numeral is ignored; the numeral is an optional
    sign and a non-empty digit part. *)
Definition py_int (s : string) : option Z :=
  let '(neg, body) := sign (strip_c_chars (chars s)) in
  match drop_inner_underscores false body with
  | None => None
  | Some l =>
      match digitpart l with
      | (n, cnt, []) =>
          if (cnt =? 0)%nat then None
          else if (int_max_str_digits <? cnt)%nat then None
          else Some (if neg then - n else n)
      | _ => None
      end
  end.

(** The binary64 value nearest to [m * 10 ^ e10] for [m > 0], ties to
    even, overflow to infinity.  The quotient [q] keeps at least 54 bits
    and the remainder decides the rounding location. *)
Definition decimal_to_binary64 (neg : bool) (m : Z) (e10 : Z) : spec_float :=
  if m =? 0 then S754_zero neg
  else
    let num := if 0 <=? e10 then m * 10 ^ e10 else m in
    let den := if 0 <=? e10 then 1 else 10 ^ (- e10) in
    let s := Z.max 0 (Z.log2 den + 55 - Z.log2 num) in
    let q := (num * 2 ^ s) / den in
    let r := (num * 2 ^ s) mod den in
    let loc := if r =? 0 then loc_Exact else loc_Inexact (2 * r ?= den) in
    binary_round_aux 53 1024 neg q (- s) loc.

(** Optional exponent [("e" | "E") [sign] digitpart] followed by the end
    of the text. *)
Definition exponent (l : list ascii) : option Z :=
  match l with
  | [] => Some 0
  | c :: l' =>
      if Ascii.eqb (lower_char c) "e" then
        let '(neg, l1) := sign l' in
        match digitpart l1 with
        | (n, cnt, []) =>
            if (cnt =? 0)%nat then None else Some (if neg then - n else n)
        | _ => None
        end
      else None
  end.

(** [floatnumber] of the grammar: [[digitpart] "." digitpart | digitpart
    ["."]], then the optional exponent. *)
Definition floatnumber (neg : bool) (l : list ascii) : option spec_float :=
  let '(ip, icnt, l1) := digitpart l in
  let '(fp, fcnt, l2) :=
    match l1 with
    | c :: l1' => if Ascii.eqb c "." then digitpart_from ip 0 l1'
                  else (ip, 0%nat, l1)
    | [] => (ip, 0%nat, [])
    end in
  if ((icnt + fcnt)%nat =? 0)%nat then None
  else
    match exponent l2 with
    | Some e => Some (decimal_to_binary64 neg fp (e - Z.of_nat fcnt))
    | None => None
    end.

(** [float(s)] for a [str].  [None] stands for [ValueError].  Accepts,
    after stripping white space, an optional sign followed by a decimal
    number or, in any letter case, [inf], [infinity] or [nan]. *)
Definition py_float (s : string) : option spec_float :=
  let '(neg, body) := sign (strip_c_chars (chars s)) in
  let word := text (map lower_char body) in
  if bool_decide (word = "inf") || bool_decide (word = "infinity")
  then Some (S754_infinity neg)
  else if bool_decide (word = "nan") then Some S754_nan
  else
    match drop_inner_underscores false body with
    | None => None
    | Some l => floatnumber neg l
    end.

(** [math.isfinite] on a number. *)
Definition is_finite (v : pyval) : bool :=
  match v with
  | VInt _ => true
  | VFloat (S754_zero _) | VFloat (S754_finite _ _ _) => true
  | VFloat _ => false
  end.

(** [v > 0] *)
Definition is_positive (v : pyval) : bool :=
  match v with
  | VInt n => 0 <? n
  | VFloat f => SFltb (S754_zero false) f
  end.

End PyNum.

(** ** The shape classes *)

Module Shapes.
Import PyNum.

(** The eight classes [main.py] imports from [shapes_2d] and [shapes_3d]. *)
Inductive kind :=
| Point | Line | Circle | Square | Rectangle | RegularPolygon
| Parallelepiped | Tetrahedron.

#[global] Instance kind_eq_dec : EqDecision kind.
Proof. solve_decision. Defined.

(** Modelled from the spec: the attributes of each variant of [Shape]
    (section 3, table of variants), in the order of the constructor's
    parameters.  The classes themselves are not part of [main.py]. *)
Inductive geometry :=
| GPoint (x y : pyval)
| GLine (x1 y1 x2 y2 : pyval)
| GCircle (center_x center_y radius : pyval)
| GSquare (x y side_length : pyval)
| GRectangle (x y width height : pyval)
| GRegularPolygon (center_x center_y : pyval) (num_sides : Z)
                  (side_length : pyval)
| GParallelepiped (x y z width height depth : pyval)
| GTetrahedron (x y z edge_length : pyval).

(** Modelled from the spec: a shape carries [id] (set by the editor after
    construction, absent before), [name] and its geometric attributes. *)
Record shape := Shape {
  shape_id : option Z;
  shape_name : string;
  shape_geom : geometry
}.

#[global] Instance geometry_eq_dec : EqDecision geometry.
Proof. solve_decision. Defined.
#[global] Instance shape_eq_dec : EqDecision shape.
Proof. solve_decision. Defined.

(** [shape.id = n] *)
Definition set_id (n : Z) (s : shape) : shape :=
  {| shape_id := Some n; shape_name := shape_name s;
     shape_geom := shape_geom s |}.

Definition kind_of (g : geometry) : kind :=
  match g with
  | GPoint _ _ => Point
  | GLine _ _ _ _ => Line
  | GCircle _ _ _ => Circle
  | GSquare _ _ _ => Square
  | GRectangle _ _ _ _ => Rectangle
  | GRegularPolygon _ _ _ _ => RegularPolygon
  | GParallelepiped _ _ _ _ _ _ => Parallelepiped
  | GTetrahedron _ _ _ _ => Tetrahedron
  end.

(** Modelled from the spec: why a [ValidationError] was raised (section
    7: non-numeric, non-positive, non-integer count, wrong number of
    parameters).  [TooFewSides] is the polygon with fewer than three
    sides of section 4.5, which the list of section 7 leaves unnamed. *)
Inductive why :=
| NonNumeric | NonPositive | NonIntegerCount | WrongArity | TooFewSides.

(** What a constructor can raise and [except Exception] catches:
    the [ValidationError] of the spec, with the parameter and the reason,
    or any other exception. *)
Inductive exn :=
| ValidationError (param : string) (reason : why)
| OtherError (message : string).

Inductive result (A : Type) :=
| Ok (a : A)
| Raise (e : exn).
Arguments Ok {A} a.
Arguments Raise {A} e.

(** Sequencing: the first exception raised ends the computation. *)
#[global] Instance result_bind : MBind result := fun A B k r =>
  match r with
  | Ok a => k a
  | Raise e => Raise e
  end.

(** Modelled from the spec: a coordinate may be any finite real. *)
Definition check_coord (param : string) (v : pyval) : result pyval :=
  if is_finite v then Ok v else Raise (ValidationError param NonNumeric).

(** Modelled from the spec: a length, radius, side or dimension is a
    finite real strictly greater than zero. *)
Definition check_size (param : string) (v : pyval) : result pyval :=
  if negb (is_finite v) then Raise (ValidationError param NonNumeric)
  else if is_positive v then Ok v
  else Raise (ValidationError param NonPositive).

(** Modelled from the spec: [num_sides] is an integer, at least 3. *)
Definition check_count (param : string) (v : pyval) : result Z :=
  match v with
  | VInt n =>
      if n <=? 0 then Raise (ValidationError param NonPositive)
      else if n <? 3 then Raise (ValidationError param TooFewSides)
      else Ok n
  | VFloat _ => Raise (ValidationError param NonIntegerCount)
  end.

(** Modelled from the spec: validation of the ordered parameter list of
    each variant (sections 3 and 4.2 to 4.6).  All parameters are checked
    before the shape exists; a list of the wrong length is a
    [ValidationError] too. *)
Definition validate (k : kind) (ps : list pyval) : result geometry :=
  match k, ps with
  | Point, [x; y] =>
      x ← check_coord "x" x; y ← check_coord "y" y;
      Ok (GPoint x y)
  | Line, [x1; y1; x2; y2] =>
      x1 ← check_coord "x1" x1; y1 ← check_coord "y1" y1;
      x2 ← check_coord "x2" x2; y2 ← check_coord "y2" y2;
      Ok (GLine x1 y1 x2 y2)
  | Circle, [cx; cy; r] =>
      cx ← check_coord "center_x" cx; cy ← check_coord "center_y" cy;
      r ← check_size "radius" r;
      Ok (GCircle cx cy r)
  | Square, [x; y; a] =>
      x ← check_coord "x" x; y ← check_coord "y" y;
      a ← check_size "side_length" a;
      Ok (GSquare x y a)
  | Rectangle, [x; y; w; h] =>
      x ← check_coord "x" x; y ← check_coord "y" y;
      w ← check_size "width" w; h ← check_size "height" h;
      Ok (GRectangle x y w h)
  | RegularPolygon, [cx; cy; n; a] =>
      cx ← check_coord "center_x" cx; cy ← check_coord "center_y" cy;
      n ← check_count "num_sides" n; a ← check_size "side_length" a;
      Ok (GRegularPolygon cx cy n a)
  | Parallelepiped, [x; y; z; w; h; d] =>
      x ← check_coord "x" x; y ← check_coord "y" y;
      z ← check_coord "z" z;
      w ← check_size "width" w; h ← check_size "height" h;
      d ← check_size "depth" d;
      Ok (GParallelepiped x y z w h d)
  | Tetrahedron, [x; y; z; a] =>
      x ← check_coord "x" x; y ← check_coord "y" y;
      z ← check_coord "z" z;
      a ← check_size "edge_length" a;
      Ok (GTetrahedron x y z a)
  | _, _ => Raise (ValidationError "parameters" WrongArity)
  end.

(** Modelled from the spec: the constructor of class [k], called with
    the numeric parameters in order and the keyword [name].  It validates and, on success, returns the
    shape with its name and without an id. *)
Definition construct (k : kind) (ps : list pyval) (name : string)
  : result shape :=
  g ← validate k ps;
  Ok {| shape_id := None; shape_name := name; shape_geom := g |}.

(** A derived quantity as the formula of section 3.  The classes compute
    it in floating point; the formula is kept symbolic. *)
Inductive formula :=
| Num (v : pyval)
| Pi
| Add (a b : formula)
| Sub (a b : formula)
| Mul (a b : formula)
| Div (a b : formula)
| Sqrt (a : formula)
| Tan (a : formula).

Definition sq (a : formula) : formula := Mul a a.
Definition of_int (n : Z) : formula := Num (VInt n).

Inductive info_value :=
| IId (n : option Z)
| IStr (s : string)
| INum (v : pyval)
| IQuantity (q : formula).

(** The mapping [get_info()] returns: keys in order with their values. *)
Definition info := list (string * info_value).

(** Modelled from the spec: the variant's symbolic name, the [type] entry
    of [get_info()]. *)
Definition type_name (k : kind) : string :=
  match k with
  | Point => "Point"
  | Line => "Line"
  | Circle => "Circle"
  | Square => "Square"
  | Rectangle => "Rectangle"
  | RegularPolygon => "RegularPolygon"
  | Parallelepiped => "Parallelepiped"
  | Tetrahedron => "Tetrahedron"
  end.

(** Modelled from the spec: the attributes and the derived quantities of
    each variant (table of section 3; a point exposes only x and y). *)
Definition geometry_info (g : geometry) : info :=
  match g with
  | GPoint x y => [("x", INum x); ("y", INum y)]
  | GLine x1 y1 x2 y2 =>
      [("x1", INum x1); ("y1", INum y1); ("x2", INum x2); ("y2", INum y2);
       ("length", IQuantity
          (Sqrt (Add (sq (Sub (Num x2) (Num x1)))
                     (sq (Sub (Num y2) (Num y1))))))]
  | GCircle cx cy r =>
      [("center_x", INum cx); ("center_y", INum cy); ("radius", INum r);
       ("circumference", IQuantity (Mul (Mul (of_int 2) Pi) (Num r)));
       ("area", IQuantity (Mul Pi (sq (Num r))))]
  | GSquare x y a =>
      [("x", INum x); ("y", INum y); ("side_length", INum a);
       ("perimeter", IQuantity (Mul (of_int 4) (Num a)));
       ("area", IQuantity (sq (Num a)))]
  | GRectangle x y w h =>
      [("x", INum x); ("y", INum y); ("width", INum w); ("height", INum h);
       ("perimeter", IQuantity (Mul (of_int 2) (Add (Num w) (Num h))));
       ("area", IQuantity (Mul (Num w) (Num h)))]
  | GRegularPolygon cx cy n a =>
      [("center_x", INum cx); ("center_y", INum cy);
       ("num_sides", INum (VInt n)); ("side_length", INum a);
       ("perimeter", IQuantity (Mul (of_int n) (Num a)));
       ("area", IQuantity
          (Div (Mul (of_int n) (sq (Num a)))
               (Mul (of_int 4) (Tan (Div Pi (of_int n))))))]
  | GParallelepiped x y z w h d =>
      [("x", INum x); ("y", INum y); ("z", INum z);
       ("width", INum w); ("height", INum h); ("depth", INum d);
       ("surface_area", IQuantity
          (Mul (of_int 2) (Add (Add (Mul (Num w) (Num h)) (Mul (Num w) (Num d)))
                            (Mul (Num h) (Num d)))));
       ("volume", IQuantity (Mul (Mul (Num w) (Num h)) (Num d)))]
  | GTetrahedron x y z a =>
      [("x", INum x); ("y", INum y); ("z", INum z); ("edge_length", INum a);
       ("surface_area", IQuantity (Mul (Sqrt (of_int 3)) (sq (Num a))));
       ("volume", IQuantity
          (Div (Mul (Num a) (sq (Num a))) (Mul (of_int 6) (Sqrt (of_int 2)))))]
  end.

(** Modelled from the spec: [shape.get_info()], a read of the shape's
    fields: id, name, type, then attributes and derived quantities. *)
Definition describe (s : shape) : info :=
  ("id", IId (shape_id s)) :: ("name", IStr (shape_name s))
  :: ("type", IStr (type_name (kind_of (shape_geom s))))
  :: geometry_info (shape_geom s).

(** [v <= 0] *)
Definition non_positive (v : pyval) : bool :=
  match v with
  | VInt n => n <=? 0
  | VFloat f => SFleb f (S754_zero false)
  end.

(** The names the registry of [main.py] gives to size parameters. *)
Definition is_size_name (p : string) : bool :=
  bool_decide (p ∈ ["radius"; "side_length"; "width"; "height"; "depth";
                    "edge_length"]).

(** The names the registry of [main.py] gives to coordinates. *)
Definition is_coord_name (p : string) : bool :=
  bool_decide (p ∈ ["x"; "y"; "z"; "center_x"; "center_y";
                    "x1"; "y1"; "x2"; "y2"]).

(** Modelled from the spec: [get_info()] as a call on the object, which
    in Python could change it: the mapping returned and the object after
    the call.  The spec has it read the fields and write none (sections
    4.1 and 5: a pure read), so the object after the call is the object
    before. *)
Definition get_info_call (s : shape) : info * shape := (describe s, s).

(** A method that leaves the object it is called on as it was. *)
Definition reads (step : shape -> info * shape) : Prop :=
  forall s : shape, snd (step s) = s.

(** What [main.py] uses of the shape classes: calling a class with the
    numeric parameters and the name, and [get_info()] on an instance. *)
Class ShapeLib := {
  shape_class : kind -> list pyval -> string -> result shape;
  get_info : shape -> info
}.

(** The classes as the specification describes them. *)
#[global] Instance spec_shapes : ShapeLib :=
  {| shape_class := construct; get_info := describe |}.

End Shapes.

(** ** The editor ([class VectorEditor]) *)

Module VectorEditor.
Import PyStr PyNum Shapes.

(** The two fields the commands read and write: [self.shapes], a dict
    from id to shape, and [self.next_id]. *)
Record editor := Editor {
  shapes : gmap Z shape;
  next_id : Z
}.

(** [__init__]: no shape, ids start at 1. *)
Definition init : editor := {| shapes := ∅; next_id := 1 |}.

(** An entry of [self.shape_types]. *)
Record shape_info := ShapeInfo {
  class : kind;
  params : list string;
  help : string
}.

(** [self.shape_types], in the order of the source. *)
Definition shape_types : list (string * shape_info) :=
  [ ("point", ShapeInfo Point ["x"; "y"]
       "Создать точку: create point x y [name]");
    ("line", ShapeInfo Line ["x1"; "y1"; "x2"; "y2"]
       "Создать отрезок: create line x1 y1 x2 y2 [name]");
    ("circle", ShapeInfo Circle ["center_x"; "center_y"; "radius"]
       "Создать круг: create circle center_x center_y radius [name]");
    ("square", ShapeInfo Square ["x"; "y"; "side_length"]
       "Создать квадрат: create square x y side_length [name]");
    ("rectangle", ShapeInfo Rectangle ["x"; "y"; "width"; "height"]
       "Создать прямоугольник: create rectangle x y width height [name]");
    ("polygon",
       ShapeInfo RegularPolygon
         ["center_x"; "center_y"; "num_sides"; "side_length"]
         "Создать правильный многоугольник: create polygon center_x center_y num_sides side_length [name]");
    ("parallelepiped",
       ShapeInfo Parallelepiped ["x"; "y"; "z"; "width"; "height"; "depth"]
         "Создать параллелепипед: create parallelepiped x y z width height depth [name]");
    ("tetrahedron", ShapeInfo Tetrahedron ["x"; "y"; "z"; "edge_length"]
       "Создать тетраэдр: create tetrahedron x y z edge_length [name]") ].

(** [d.get(key)] on a dict written as its items. *)
Fixpoint dict_get {A} (d : list (string * A)) (key : string) : option A :=
  match d with
  | [] => None
  | (k, v) :: d' => if bool_decide (k = key) then Some v else dict_get d' key
  end.

(** One call of [print].  The text of a shape ([str(shape)]), of an
    exception and of the JSON dump belongs to code outside [main.py];
    such lines keep the printed object instead of its text. *)
Inductive out :=
| Say (line : string)
| SayCreated (s : shape)        (* "Создана фигура: {shape}" *)
| SayCreateFailed (e : exn)     (* "Ошибка при создании фигуры: {e}" *)
| SayListed (id : Z) (s : shape) (* "  {shape_id}: {shape}" *)
| SayInfo (i : info)            (* json.dumps(info, indent=2, ...) *)
| SayDeleted (s : shape).       (* "Удалена фигура: {shape}" *)

(** A line feed, for the texts that start with one. *)
Definition nl : string := String (ascii_of_nat 10) "".

(** [show_help] *)
Definition show_help (e : editor) (args : list string) : editor * list out :=
  (e,
   [ Say (nl +:+ "Доступные команды:");
     Say "  help                      - Показать эту справку";
     Say "  create <тип> <параметры>  - Создать новую фигуру";
     Say "  list                      - Показать список всех фигур";
     Say "  info <id>                 - Показать информацию о фигуре";
     Say "  delete <id>               - Удалить фигуру";
     Say "  clear                     - Удалить все фигуры";
     Say "  exit                      - Выйти из редактора";
     Say (nl +:+ "Доступные типы фигур:") ]
   ++ map (fun entry => Say ("  " +:+ help (snd entry))) shape_types).

(** The conversion of one token in the loop of [create_shape]: [int] for
    a polygon's token that equals [params[2]], [float] otherwise.  [None]
    stands for [ValueError]. *)
Definition convert (shape_type : string) (params : list string)
    (param : string) : option pyval :=
  if bool_decide (shape_type = "polygon")
     && bool_decide (params !! 2%nat = Some param)
  then VInt <$> py_int param
  else VFloat <$> py_float param.

(** The loop that fills [numeric_params]; the first [ValueError] ends it. *)
Definition numeric_params (shape_type : string) (params : list string)
  : option (list pyval) :=
  mapM (convert shape_type params) params.

(** Where [create_shape] stands when it reaches [# Создаем фигуру]:
    it has printed and returned, or it is about to call the class. *)
Inductive request :=
| Rejected (printed : list out)
| Construct (c : kind) (numeric_params : list pyval) (name : string).

(** [create_shape] up to the call of the class: type lookup, count of
    parameters, conversion of the tokens, choice of the name. *)
Definition parse_create (e : editor) (args : list string) : request :=
  match args with
  | [] => Rejected [Say "Ошибка: Не указан тип фигуры"]
  | type_token :: _ =>
      let shape_type := lower type_token in
      match dict_get shape_types shape_type with
      | None =>
          Rejected
            [ Say ("Ошибка: Неизвестный тип фигуры '" +:+ shape_type +:+ "'");
              Say "Используйте 'help' для просмотра доступных типов фигур" ]
      | Some shape_info =>
          let required_params := params shape_info in
          if Z.of_nat (length args) - 1 <? Z.of_nat (length required_params)
          then
            Rejected
              [ Say ("Ошибка: Недостаточно параметров для создания фигуры '"
                     +:+ shape_type +:+ "'");
                Say ("Использование: " +:+ help shape_info) ]
          else
            let params := take (length required_params) (drop 1 args) in
            match numeric_params shape_type params with
            | None => Rejected [Say "Ошибка: Параметры должны быть числами"]
            | Some numeric =>
                let name :=
                  if Z.of_nat (length required_params) + 1
                     <? Z.of_nat (length args)
                  then default "" (args !! (length required_params + 1)%nat)
                  else capitalize shape_type +:+ " "
                       +:+ str_of_int (next_id e) in
                Construct (class shape_info) numeric name
            end
      end
  end.

(** The two lines [create_shape] prints when tokens are missing. *)
Definition too_few_parameters (shape_type : string) (info : shape_info)
  : list out :=
  [ Say ("Ошибка: Недостаточно параметров для создания фигуры '"
         +:+ shape_type +:+ "'");
    Say ("Использование: " +:+ help info) ].

(** The line [create_shape] prints when a conversion raises. *)
Definition not_numbers : list out :=
  [Say "Ошибка: Параметры должны быть числами"].

(** Every stored shape carries the key it is stored under, and that key
    is below the counter. *)
Definition tracked (e : editor) : Prop :=
  forall (i : Z) (s : shape),
    shapes e !! i = Some s -> shape_id s = Some i /\ i < next_id e.

(** Keys start at 1 and fewer shapes are stored than the counter says. *)
Definition in_range (e : editor) : Prop :=
  Z.of_nat (size (shapes e)) < next_id e
  /\ forall (k : Z) (s : shape), shapes e !! k = Some s -> 1 <= k.

(** The order of the items of [self.shapes] by key. *)
Definition key_le (a b : Z * shape) : Prop := fst a <= fst b.

#[global] Instance key_le_dec (a b : Z * shape) : Decision (key_le a b).
Proof. unfold key_le. apply _. Defined.

Section Commands.
Context `{ShapeLib}.

(** [create_shape]: the class is called inside [try]; an exception it
    raises is printed and nothing else happens.  The text of the new
    shape in the last [print] is taken to be returned, not raised. *)
Definition create_shape (e : editor) (args : list string)
  : editor * list out :=
  match parse_create e args with
  | Rejected printed => (e, printed)
  | Construct c numeric name =>
      match shape_class c numeric name with
      | Raise ex => (e, [SayCreateFailed ex])
      | Ok shape =>
          let shape := set_id (next_id e) shape in
          ({| shapes := <[next_id e := shape]> (shapes e);
              next_id := next_id e + 1 |},
           [SayCreated shape])
      end
  end.

(** [list_shapes].  A dict is read in insertion order; ids are inserted
    in increasing order, which is the order used here. *)
Definition list_shapes (e : editor) (args : list string)
  : editor * list out :=
  if bool_decide (shapes e = ∅) then (e, [Say "Список фигур пуст"])
  else
    (e,
     Say (nl +:+ "Список фигур:")
     :: map (fun entry => SayListed (fst entry) (snd entry))
            (merge_sort key_le (map_to_list (shapes e)))).

(** [show_shape_info] *)
Definition show_shape_info (e : editor) (args : list string)
  : editor * list out :=
  match args with
  | [] => (e, [Say "Ошибка: Не указан ID фигуры"])
  | id_token :: _ =>
      match py_int id_token with
      | None => (e, [Say "Ошибка: ID должен быть числом"])
      | Some shape_id =>
          match shapes e !! shape_id with
          | None =>
              (e, [Say ("Ошибка: Фигура с ID " +:+ str_of_int shape_id
                        +:+ " не найдена")])
          | Some shape =>
              let info := get_info shape in
              (e, [ Say (nl +:+ "Информация о фигуре "
                         +:+ str_of_int shape_id +:+ ":");
                    SayInfo info ])
          end
      end
  end.

(** [delete_shape] *)
Definition delete_shape (e : editor) (args : list string)
  : editor * list out :=
  match args with
  | [] => (e, [Say "Ошибка: Не указан ID фигуры"])
  | id_token :: _ =>
      match py_int id_token with
      | None => (e, [Say "Ошибка: ID должен быть числом"])
      | Some shape_id =>
          match shapes e !! shape_id with
          | None =>
              (e, [Say ("Ошибка: Фигура с ID " +:+ str_of_int shape_id
                        +:+ " не найдена")])
          | Some shape =>
              ({| shapes := delete shape_id (shapes e);
                  next_id := next_id e |},
               [SayDeleted shape])
          end
      end
  end.

(** [clear_shapes] *)
Definition clear_shapes (e : editor) (args : list string)
  : editor * list out :=
  let count := size (shapes e) in
  ({| shapes := ∅; next_id := next_id e |},
   [Say ("Удалено фигур: " +:+ str_of_int (Z.of_nat count))]).

(** [exit_editor]: the line it prints; the caller ends the session. *)
Definition exit_editor (e : editor) (args : list string)
  : editor * list out :=
  (e, [Say "Выход из редактора"]).

(** The keys of [self.commands]. *)
Inductive command := Help | Create | List | Info | Delete | Clear | Exit.

Definition commands : list (string * command) :=
  [ ("help", Help); ("create", Create); ("list", List); ("info", Info);
    ("delete", Delete); ("clear", Clear); ("exit", Exit) ].

(** Whether the session goes on after a command: [exit_editor] ends it
    with [sys.exit(0)], which no handler of [run] catches. *)
Inductive control := Continue | Stop.

(** [self.commands[command](args)] *)
Definition call (c : command) (e : editor) (args : list string)
  : editor * list out * control :=
  match c with
  | Help => (show_help e args, Continue)
  | Create => (create_shape e args, Continue)
  | List => (list_shapes e args, Continue)
  | Info => (show_shape_info e args, Continue)
  | Delete => (delete_shape e args, Continue)
  | Clear => (clear_shapes e args, Continue)
  | Exit => (exit_editor e args, Stop)
  end.

(** [process_command] *)
Definition process_command (e : editor) (command_line : string)
  : editor * list out * control :=
  match split (strip command_line) with
  | [] => ((e, []), Continue)
  | first :: args =>
      let command := lower first in
      match dict_get commands command with
      | Some c => call c e args
      | None =>
          ((e, [ Say ("Ошибка: Неизвестная команда '" +:+ command +:+ "'");
                 Say "Используйте 'help' для просмотра доступных команд" ]),
           Continue)
      end
  end.

(** The loop of [run] on the lines [input] returns, one after the other;
    the end of the lines is the end of input ([EOFError]). *)
Fixpoint run_loop (e : editor) (inputs : list string) : editor * list out :=
  match inputs with
  | [] => (e, [Say (nl +:+ "Конец ввода")])
  | command_line :: rest =>
      match process_command e command_line with
      | ((e', printed), Stop) => (e', printed)
      | ((e', printed), Continue) =>
          let '(e'', printed') := run_loop e' rest in
          (e'', printed ++ printed')
      end
  end.

(** [run] on a fresh editor. *)
Definition run (inputs : list string) : editor * list out :=
  let '(e, printed) := run_loop init inputs in
  (e,
   Say "Векторный редактор CLI"
   :: Say "Введите 'help' для просмотра доступных команд" :: printed).



(** A command line whose first word, in lower case, is [exit]. *)
Definition exit_line (command_line : string) : Prop :=
  exists first args,
    split (strip command_line) = first :: args /\ lower first = "exit".


(** The states a session can be in: the fresh editor and every state
    after one more command line. *)
Inductive reachable : editor -> Prop :=
| reachable_init : reachable init
| reachable_step e command_line :
    reachable e ->
    reachable (fst (fst (process_command e command_line))).

(** The ids given out by the creations among the printed lines, in the
    order of the session. *)
Definition assigned_ids (printed : list out) : list Z :=
  omap (fun o => match o with SayCreated s => shape_id s | _ => None end)
       printed.

(** No two stored shapes carry the same id. *)
Definition unique_ids (e : editor) : Prop :=
  forall (i j : Z) (s t : shape),
    shapes e !! i = Some s -> shapes e !! j = Some t -> i <> j ->
    shape_id s <> shape_id t.

End Commands.

(** [show_shape_info] with [get_info()] taken as a method that may write
    to the object it is called on: [step] gives the mapping and the
    object after the call.  [shape = self.shapes[shape_id]] is the
    stored object itself, so what the call does to it is there in the
    collection afterwards. *)
Definition show_shape_info_call (step : shape -> info * shape)
    (e : editor) (args : list string) : editor * list out :=
  match args with
  | [] => (e, [Say "Ошибка: Не указан ID фигуры"])
  | id_token :: _ =>
      match py_int id_token with
      | None => (e, [Say "Ошибка: ID должен быть числом"])
      | Some shape_id =>
          match shapes e !! shape_id with
          | None =>
              (e, [Say ("Ошибка: Фигура с ID " +:+ str_of_int shape_id
                        +:+ " не найдена")])
          | Some shape =>
              let '(info, shape_after) := step shape in
              ({| shapes := <[shape_id := shape_after]> (shapes e);
                  next_id := next_id e |},
               [ Say (nl +:+ "Информация о фигуре "
                      +:+ str_of_int shape_id +:+ ":");
                 SayInfo info ])
          end
      end
  end.

End VectorEditor.

(** ** Properties of the editor *)

Import PyStr PyNum Shapes VectorEditor.

(** The conversions on a few numerals: signs, underscores and white
    space; a fraction is no integer; rounding to the nearest binary64
    with ties to even ([1e23]), the largest finite value, overflow to
    infinity, the smallest subnormal and underflow to zero. *)
Example py_int_numerals :
  py_int "12" = Some 12 /\ py_int " -1_000 " = Some (-1000)
  /\ py_int "+007" = Some 7 /\ py_int "3.5" = None /\ py_int "1__0" = None
  /\ py_int "_1" = None /\ py_int "1_" = None /\ py_int "" = None
  /\ py_int "-" = None /\ py_int "1e3" = None /\ py_int "1 2" = None.
Proof. repeat split; reflexivity. Qed.

Example py_float_numerals :
  py_float "0.1" = Some (S754_finite false 7205759403792794 (-56))
  /\ py_float "1e23" = Some (S754_finite false 5960464477539062 24)
  /\ py_float "1.7976931348623157e308"
     = Some (S754_finite false 9007199254740991 971)
  /\ py_float "1.7976931348623159e308" = Some (S754_infinity false)
  /\ py_float "5e-324" = Some (S754_finite false 1 (-1074))
  /\ py_float "2.4e-324" = Some (S754_zero false)
  /\ py_float "-0" = Some (S754_zero true)
  /\ py_float ".5" = Some (S754_finite false 4503599627370496 (-53))
  /\ py_float "5." = Some (S754_finite false 5629499534213120 (-50))
  /\ py_float "1_0.5E1" = Some (S754_finite false 7388718138654720 (-46))
  /\ py_float "-Infinity" = Some (S754_infinity true)
  /\ py_float "NaN" = Some S754_nan
  /\ py_float "." = None /\ py_float "1e" = None /\ py_float "1_.5" = None
  /\ py_float "0x10" = None /\ py_float "" = None.
Proof. repeat split; reflexivity. Qed.

Example separators_are_no_space_for_int :
  py_int (String (ascii_of_nat 28) "5") = None
  /\ py_float (String (ascii_of_nat 31) "5") = None
  /\ py_int (String (ascii_of_nat 9) "5 ") = Some 5
  /\ strip (String (ascii_of_nat 28) "5") = "5".
Proof. repeat split; reflexivity. Qed.

Example split_command_line :
  split (strip "  create  Circle 0 0 1  ")
  = ["create"; "Circle"; "0"; "0"; "1"]
  /\ capitalize (lower "pOLYGON") = "Polygon".
Proof. split; reflexivity. Qed.

Section EditorFacts.
Context `{ShapeLib}.

(** The three ways [create_shape] ends. *)
Lemma create_shape_cases (e : editor) (args : list string) :
  (exists printed,
      parse_create e args = Rejected printed /\
      create_shape e args = (e, printed) /\ assigned_ids printed = [])
  \/ (exists c numeric name ex,
      parse_create e args = Construct c numeric name /\
      shape_class c numeric name = Raise ex /\
      create_shape e args = (e, [SayCreateFailed ex]))
  \/ (exists c numeric name s,
      parse_create e args = Construct c numeric name /\
      shape_class c numeric name = Ok s /\
      create_shape e args =
        ({| shapes := <[next_id e := set_id (next_id e) s]> (shapes e);
            next_id := next_id e + 1 |},
         [SayCreated (set_id (next_id e) s)])).
Proof.
  unfold create_shape.
  destruct (parse_create e args) as [printed | c numeric name] eqn:Hp.
  - left. exists printed. split; [done | split; [done |]].
    revert Hp. unfold parse_create.
    destruct args as [| type_token rest]; [by intros [= <-] |].
    destruct (dict_get shape_types (lower type_token)); [| by intros [= <-]].
    case_match; [by intros [= <-] |].
    case_match; [done | by intros [= <-]].
  - destruct (shape_class c numeric name) as [s | ex] eqn:Hc.
    + right; right. by exists c, numeric, name, s.
    + right; left. by exists c, numeric, name, ex.
Qed.

Lemma tracked_init : tracked init.
Proof. intros i s. unfold init; simpl. by rewrite lookup_empty. Qed.

Lemma tracked_create (e : editor) (args : list string) :
  tracked e -> tracked (fst (create_shape e args)).
Proof.
  intros He.
  destruct (create_shape_cases e args)
    as [(printed & _ & -> & _) | [(c & n & nm & ex & _ & _ & ->)
                                 | (c & n & nm & s & _ & _ & ->)]];
    simpl; [done | done |].
  intros i t. simpl. rewrite lookup_insert.
  case_decide as Hi.
  - intros [= <-]. subst i. simpl. split; [done | lia].
  - intros Ht. destruct (He i t Ht) as [? ?]. split; [done | lia].
Qed.

Lemma tracked_delete (e : editor) (args : list string) :
  tracked e -> tracked (fst (delete_shape e args)).
Proof.
  intros He. unfold delete_shape.
  destruct args as [| id_token rest]; [done |].
  destruct (py_int id_token) as [k |]; [| done].
  destruct (shapes e !! k) as [s |] eqn:Hk; [| done].
  intros i t. simpl. rewrite lookup_delete.
  case_decide; [done | apply He].
Qed.

Lemma tracked_clear (e : editor) (args : list string) :
  tracked e -> tracked (fst (clear_shapes e args)).
Proof. intros _ i s. simpl. by rewrite lookup_empty. Qed.

Lemma show_shape_info_state (e : editor) (args : list string) :
  fst (show_shape_info e args) = e.
Proof.
  unfold show_shape_info.
  destruct args as [| id_token rest]; [done |].
  destruct (py_int id_token) as [k |]; [| done].
  by destruct (shapes e !! k).
Qed.

Lemma list_shapes_state (e : editor) (args : list string) :
  fst (list_shapes e args) = e.
Proof. unfold list_shapes. by case_bool_decide. Qed.

Lemma tracked_call (c : command) (e : editor) (args : list string) :
  tracked e -> tracked (fst (fst (call c e args))).
Proof.
  intros He. destruct c; cbn [call fst].
  - done.
  - by apply tracked_create.
  - by rewrite list_shapes_state.
  - by rewrite show_shape_info_state.
  - by apply tracked_delete.
  - by apply tracked_clear.
  - done.
Qed.

Lemma tracked_process_command (e : editor) (command_line : string) :
  tracked e -> tracked (fst (fst (process_command e command_line))).
Proof.
  intros He. unfold process_command.
  destruct (split (strip command_line)) as [| first args]; [done |].
  destruct (dict_get commands (lower first)) as [c |]; [| done].
  by apply tracked_call.
Qed.

Lemma tracked_reachable (e : editor) : reachable e -> tracked e.
Proof.
  induction 1 as [| e command_line _ IH].
  - apply tracked_init.
  - by apply tracked_process_command.
Qed.

Lemma tracked_unique_ids (e : editor) : tracked e -> unique_ids e.
Proof.
  intros He i j s t Hs Ht Hij Heq.
  destruct (He i s Hs) as [Hi _]. destruct (He j t Ht) as [Hj _].
  congruence.
Qed.

(** C1. If the class raises when [create_shape] calls it, the editor is
    left as it was: the collection has the same entries, [next_id] has
    the same value, and the only effect is the printed error. *)
Theorem create_failure_keeps_state
    (e : editor) (args : list string)
    (c : kind) (numeric : list pyval) (name : string) (ex : exn) :
  parse_create e args = Construct c numeric name ->
  shape_class c numeric name = Raise ex ->
  create_shape e args = (e, [SayCreateFailed ex])
  /\ shapes (fst (create_shape e args)) = shapes e
  /\ next_id (fst (create_shape e args)) = next_id e.
Proof.
  intros Hp Hc. unfold create_shape. rewrite Hp, Hc. done.
Qed.

(** C2. A shape the class returns gets its id from the editor: it is
    stored under [next_id] with [id] set to that value, and [next_id]
    grows by one.  In every state of a session no two stored shapes
    carry the same id, also after one more creation. *)
Theorem ids_assigned_by_editor_and_unique (e : editor) :
  reachable e ->
  unique_ids e
  /\ forall (args : list string) (c : kind) (numeric : list pyval)
            (name : string) (s : shape),
       parse_create e args = Construct c numeric name ->
       shape_class c numeric name = Ok s ->
       let e' := fst (create_shape e args) in
       shapes e' = <[next_id e := set_id (next_id e) s]> (shapes e)
       /\ shape_id (set_id (next_id e) s) = Some (next_id e)
       /\ next_id e' = next_id e + 1
       /\ shapes e !! next_id e = None
       /\ unique_ids e'.
Proof.
  intros Hr. pose proof (tracked_reachable e Hr) as He.
  split; [by apply tracked_unique_ids |].
  intros args c numeric name s Hp Hc e'.
  assert (He' : tracked e') by (by apply tracked_create).
  subst e'. revert He'. unfold create_shape. rewrite Hp, Hc. simpl.
  intros He'. repeat split; try done.
  - destruct (shapes e !! next_id e) as [t |] eqn:Ht; [| done].
    destruct (He _ _ Ht). lia.
  - by apply tracked_unique_ids.
Qed.

End EditorFacts.

(** ** The request before the class is called *)

Lemma dict_get_elem_of {A} (d : list (string * A)) (key : string) (v : A) :
  dict_get d key = Some v -> (key, v) ∈ d.
Proof.
  induction d as [| [k w] d IH]; simpl; [done |].
  case_bool_decide as Hk.
  - intros [= ->]. subst k. apply list_elem_of_here.
  - intros Hd. apply list_elem_of_further. by apply IH.
Qed.

(** [parse_create] once the type is known, with the tokens after the
    type token counted on their own. *)
Lemma parse_create_known (e : editor) (type_token : string)
    (rest : list string) (info : shape_info) :
  dict_get shape_types (lower type_token) = Some info ->
  parse_create e (type_token :: rest) =
    if (length rest <? length (params info))%nat
    then Rejected (too_few_parameters (lower type_token) info)
    else
      match numeric_params (lower type_token)
                           (take (length (params info)) rest) with
      | None => Rejected not_numbers
      | Some numeric =>
          Construct (class info) numeric
            (if (length (params info) <? length rest)%nat
             then default "" (rest !! length (params info))
             else capitalize (lower type_token) +:+ " "
                  +:+ str_of_int (next_id e))
      end.
Proof.
  intros Hd. unfold parse_create. rewrite Hd.
  cbn [length drop].
  destruct (Nat.ltb_spec (length rest) (length (params info))) as [Hlt | Hge].
  - destruct (Z.ltb_spec (Z.of_nat (S (length rest)) - 1)
                         (Z.of_nat (length (params info)))); [done | lia].
  - destruct (Z.ltb_spec (Z.of_nat (S (length rest)) - 1)
                         (Z.of_nat (length (params info)))); [lia |].
    destruct (numeric_params _ _); [| done].
    f_equal.
    replace (length (params info) + 1)%nat with (S (length (params info)))
      by lia.
    cbn [lookup list_lookup].
    destruct (Nat.ltb_spec (length (params info)) (length rest));
      destruct (Z.ltb_spec (Z.of_nat (length (params info)) + 1)
                           (Z.of_nat (S (length rest)))); done || lia.
Qed.

(** The conversion of a polygon's four tokens. *)
Lemma convert_polygon (cx cy n a param : string) :
  convert "polygon" [cx; cy; n; a] param =
    if bool_decide (param = n) then VInt <$> py_int param
    else VFloat <$> py_float param.
Proof.
  unfold convert. cbn [lookup list_lookup].
  rewrite bool_decide_eq_true_2 by done. cbn [andb].
  case_bool_decide as H1; case_bool_decide as H2; congruence.
Qed.

(** The conversion for every other type. *)
Lemma convert_not_polygon (shape_type : string) (params : list string)
    (param : string) :
  shape_type <> "polygon" ->
  convert shape_type params param = VFloat <$> py_float param.
Proof.
  intros Hne. unfold convert. by rewrite bool_decide_eq_false_2.
Qed.

(** C10. In a polygon request every one of the four tokens that is the
    same text as the third one is converted with [int], the others with
    [float]: a centre or side-length token equal to the [num_sides]
    token reaches the class as an [int]. *)
Theorem polygon_tokens_equal_to_num_sides_are_int
    (e : editor) (type_token cx cy n a : string) (rest : list string)
    (c : kind) (numeric : list pyval) (name : string) :
  lower type_token = "polygon" ->
  parse_create e (type_token :: cx :: cy :: n :: a :: rest)
    = Construct c numeric name ->
  c = RegularPolygon
  /\ exists (k : Z) (vx vy va : pyval),
       py_int n = Some k
       /\ numeric = [vx; vy; VInt k; va]
       /\ (cx = n -> vx = VInt k)
       /\ (cy = n -> vy = VInt k)
       /\ (a = n -> va = VInt k)
       /\ (cx <> n -> exists f, py_float cx = Some f /\ vx = VFloat f)
       /\ (cy <> n -> exists f, py_float cy = Some f /\ vy = VFloat f)
       /\ (a <> n -> exists f, py_float a = Some f /\ va = VFloat f).
Proof.
  intros Hty.
  rewrite (parse_create_known e type_token _
             (ShapeInfo RegularPolygon
                ["center_x"; "center_y"; "num_sides"; "side_length"]
                "Создать правильный многоугольник: create polygon center_x center_y num_sides side_length [name]"))
    by (rewrite Hty; reflexivity).
  rewrite Hty. cbn [params class length take]. rewrite take_0.
  destruct (Nat.ltb_spec (S (S (S (S (length rest))))) 4); [lia |].
  destruct (numeric_params "polygon" [cx; cy; n; a]) as [vs |] eqn:Hn;
    [| done].
  intros [= <- <- _]. split; [done |].
  apply mapM_Some_1 in Hn.
  apply Forall2_cons_inv_l in Hn as (vx & vs1 & Hx & Hn & ->).
  apply Forall2_cons_inv_l in Hn as (vy & vs2 & Hy & Hn & ->).
  apply Forall2_cons_inv_l in Hn as (vn & vs3 & Hk & Hn & ->).
  apply Forall2_cons_inv_l in Hn as (va & vs4 & Ha & Hn & ->).
  apply Forall2_nil_inv_l in Hn as ->.
  rewrite convert_polygon in Hx, Hy, Hk, Ha.
  rewrite bool_decide_eq_true_2 in Hk by done.
  destruct (py_int n) as [k |] eqn:Hi; [| done].
  injection Hk as <-.
  exists k, vx, vy, va. split; [done |]. split; [done |].
  repeat split.
  - intros ->. rewrite bool_decide_eq_true_2, Hi in Hx by done. by injection Hx.
  - intros ->. rewrite bool_decide_eq_true_2, Hi in Hy by done. by injection Hy.
  - intros ->. rewrite bool_decide_eq_true_2, Hi in Ha by done. by injection Ha.
  - intros Hne. rewrite bool_decide_eq_false_2 in Hx by done.
    destruct (py_float cx) as [f |]; [| done]. exists f. split; [done |].
    by injection Hx.
  - intros Hne. rewrite bool_decide_eq_false_2 in Hy by done.
    destruct (py_float cy) as [f |]; [| done]. exists f. split; [done |].
    by injection Hy.
  - intros Hne. rewrite bool_decide_eq_false_2 in Ha by done.
    destruct (py_float a) as [f |]; [| done]. exists f. split; [done |].
    by injection Ha.
Qed.

Lemma shape_types_keys (key : string) (info : shape_info) :
  dict_get shape_types key = Some info ->
  (class info, key, capitalize key, length (params info)) ∈
    [ (Point, "point", "Point", 2%nat);
      (Line, "line", "Line", 4%nat);
      (Circle, "circle", "Circle", 3%nat);
      (Square, "square", "Square", 3%nat);
      (Rectangle, "rectangle", "Rectangle", 4%nat);
      (RegularPolygon, "polygon", "Polygon", 4%nat);
      (Parallelepiped, "parallelepiped", "Parallelepiped", 6%nat);
      (Tetrahedron, "tetrahedron", "Tetrahedron", 4%nat) ].
Proof.
  intros Hd. apply dict_get_elem_of in Hd. unfold shape_types in Hd.
  repeat (apply elem_of_cons in Hd as [[= -> ->] | Hd];
          [cbn [class params length]; by repeat constructor |]).
  by apply elem_of_nil in Hd.
Qed.

Lemma numeric_params_length (shape_type : string) (tokens : list string)
    (numeric : list pyval) :
  numeric_params shape_type tokens = Some numeric ->
  length numeric = length tokens.
Proof.
  intros Hn. apply mapM_Some_1 in Hn. symmetry.
  by eapply Forall2_length.
Qed.

(** C3, as the code has it.  With the required number of tokens the only
    check of the command line is the conversion of the tokens.  The sign
    of a value is never looked at: whatever [float] accepts reaches the
    class, and so does any side count [int] accepts.  A side count that
    [int] refuses is turned down by the command line itself. *)
Theorem command_line_checks_conversion_only
    (e : editor) (type_token : string) (tokens extra : list string)
    (info : shape_info) :
  dict_get shape_types (lower type_token) = Some info ->
  length tokens = length (params info) ->
  (* any type but polygon: floats of any sign are passed on *)
  (lower type_token <> "polygon" ->
   forall floats : list spec_float,
     Forall2 (fun t f => py_float t = Some f) tokens floats ->
     exists name,
       parse_create e (type_token :: tokens ++ extra)
       = Construct (class info) (VFloat <$> floats) name)
  (* polygon: an integer side count of any size is passed on *)
  /\ (lower type_token = "polygon" ->
      forall (cx cy n a : string) (fx fy fa : spec_float) (k : Z),
        tokens = [cx; cy; n; a] ->
        cx <> n -> cy <> n -> a <> n ->
        py_float cx = Some fx -> py_float cy = Some fy ->
        py_int n = Some k -> py_float a = Some fa ->
        exists name,
          parse_create e (type_token :: tokens ++ extra)
          = Construct RegularPolygon
              [VFloat fx; VFloat fy; VInt k; VFloat fa] name)
  (* polygon: a side count that is not an integer numeral is refused *)
  /\ (lower type_token = "polygon" ->
      forall n : string,
        tokens !! 2%nat = Some n -> py_int n = None ->
        parse_create e (type_token :: tokens ++ extra)
        = Rejected not_numbers)
  (* there is no other refusal *)
  /\ ((exists numeric name,
         parse_create e (type_token :: tokens ++ extra)
         = Construct (class info) numeric name
         /\ numeric_params (lower type_token) tokens = Some numeric)
      \/ (parse_create e (type_token :: tokens ++ extra)
          = Rejected not_numbers
          /\ Exists (fun t => convert (lower type_token) tokens t = None)
                    tokens)).
Proof.
  intros Hd Hlen.
  assert (Hparse : parse_create e (type_token :: tokens ++ extra) =
            match numeric_params (lower type_token) tokens with
            | None => Rejected not_numbers
            | Some numeric =>
                Construct (class info) numeric
                  (if (length (params info) <? length (tokens ++ extra))%nat
                   then default "" ((tokens ++ extra) !! length (params info))
                   else capitalize (lower type_token) +:+ " "
                        +:+ str_of_int (next_id e))
            end).
  { rewrite (parse_create_known e type_token _ info Hd).
    rewrite <- Hlen, take_app_length, length_app.
    destruct (Nat.ltb_spec (length tokens + length extra) (length tokens));
      [lia | done]. }
  rewrite Hparse. clear Hparse.
  split; [| split; [| split]].
  - intros Hne floats Hf.
    assert (numeric_params (lower type_token) tokens
            = Some (VFloat <$> floats)) as ->; [| by eexists].
    apply mapM_Some_2. apply Forall2_fmap_r.
    eapply Forall2_impl; [exact Hf |].
    intros t f Ht. cbn beta. rewrite convert_not_polygon by done.
    by rewrite Ht.
  - intros Hty cx cy n a fx fy fa k -> Hx Hy Ha Hfx Hfy Hk Hfa.
    rewrite Hty in Hd |- *. cbn in Hd. injection Hd as <-.
    assert (numeric_params "polygon" [cx; cy; n; a]
            = Some [VFloat fx; VFloat fy; VInt k; VFloat fa]) as ->;
      [| by eexists].
    apply mapM_Some_2.
    repeat (apply List.Forall2_cons); try apply List.Forall2_nil;
      rewrite convert_polygon.
    + rewrite bool_decide_eq_false_2 by done. by rewrite Hfx.
    + rewrite bool_decide_eq_false_2 by done. by rewrite Hfy.
    + rewrite bool_decide_eq_true_2 by done. by rewrite Hk.
    + rewrite bool_decide_eq_false_2 by done. by rewrite Hfa.
  - intros Hty n Hn Hk.
    assert (numeric_params (lower type_token) tokens = None) as ->; [| done].
    apply mapM_None_2. apply Exists_exists. exists n.
    split; [by eapply list_elem_of_lookup_2 |].
    unfold convert. rewrite Hty, Hn.
    rewrite !bool_decide_eq_true_2 by done. cbn [andb]. by rewrite Hk.
  - destruct (numeric_params (lower type_token) tokens) as [numeric |] eqn:Hn.
    + left. by eexists _, _.
    + right. split; [done |]. by apply mapM_None_1.
Qed.

Lemma construct_keeps_name
    (k : kind) (values : list pyval) (name : string) (s : shape) :
  construct k values name = Ok s -> shape_name s = name /\ shape_id s = None.
Proof.
  unfold construct. destruct (validate k values) as [g | ex]; cbn; [| done].
  by intros [= <-].
Qed.

Section DefaultName.
Context `{ShapeLib}.

(** C5, as the code has it.  Without a name token the name
    [create_shape] gives to the class is the capitalised type word of the
    command, a space, and the value of [next_id], which is the id the
    shape then receives.  For seven of the eight classes that word is
    the variant's type name; for [RegularPolygon] it is "Polygon".
    Setting the id leaves the name alone, and the classes of the spec
    keep the name they are constructed with, so this is the name of the
    created shape. *)
Theorem default_name_is_type_and_id
    (e : editor) (type_token : string) (tokens : list string)
    (info : shape_info) (c : kind) (numeric : list pyval) (name : string) :
  dict_get shape_types (lower type_token) = Some info ->
  (length tokens <= length (params info))%nat ->
  parse_create e (type_token :: tokens) = Construct c numeric name ->
  name = capitalize (lower type_token) +:+ " " +:+ str_of_int (next_id e)
  /\ (class info, capitalize (lower type_token)) ∈
       [ (Point, "Point"); (Line, "Line"); (Circle, "Circle");
         (Square, "Square"); (Rectangle, "Rectangle");
         (RegularPolygon, "Polygon"); (Parallelepiped, "Parallelepiped");
         (Tetrahedron, "Tetrahedron") ]
  /\ (class info <> RegularPolygon ->
      name = type_name (class info) +:+ " " +:+ str_of_int (next_id e))
  /\ (class info = RegularPolygon ->
      name = "Polygon" +:+ " " +:+ str_of_int (next_id e))
  /\ (forall s : shape,
        shape_class c numeric name = Ok s ->
        create_shape e (type_token :: tokens)
        = ({| shapes := <[next_id e := set_id (next_id e) s]> (shapes e);
              next_id := next_id e + 1 |},
           [SayCreated (set_id (next_id e) s)])
        /\ shape_id (set_id (next_id e) s) = Some (next_id e)
        /\ shape_name (set_id (next_id e) s) = shape_name s)
  /\ (forall s : shape,
        construct c numeric name = Ok s ->
        shape_name (set_id (next_id e) s)
        = capitalize (lower type_token) +:+ " " +:+ str_of_int (next_id e)).
Proof.
  intros Hd Hlen Hp.
  assert (Hname : name = capitalize (lower type_token) +:+ " "
                         +:+ str_of_int (next_id e)).
  { revert Hp. rewrite (parse_create_known e type_token tokens info Hd).
    destruct (Nat.ltb_spec (length tokens) (length (params info)));
      [done |].
    destruct (numeric_params _ _); [| done].
    destruct (Nat.ltb_spec (length (params info)) (length tokens)); [lia |].
    by intros [= _ _ <-]. }
  split; [exact Hname |].
  pose proof (shape_types_keys _ _ Hd) as Hk.
  split; [| split; [| split; [| split]]].
  - repeat (apply elem_of_cons in Hk as [[= -> _ -> _] | Hk];
            [by repeat constructor |]).
    by apply elem_of_nil in Hk.
  - intros Hclass. rewrite Hname.
    repeat (apply elem_of_cons in Hk as [[= Hc _ Hw _] | Hk];
            [by rewrite Hw, Hc in * |]).
    by apply elem_of_nil in Hk.
  - intros Hclass. rewrite Hname.
    repeat (apply elem_of_cons in Hk as [[= Hc _ Hw _] | Hk];
            [rewrite Hw; by rewrite Hc in Hclass |]).
    by apply elem_of_nil in Hk.
  - intros s Hs. unfold create_shape. by rewrite Hp, Hs.
  - intros s Hs. apply construct_keeps_name in Hs as [Hn _].
    cbn. by rewrite Hn.
Qed.

End DefaultName.

Section CountOfParameters.
Context `{ShapeLib}.

(** C6, as the code has it.  A request with too few parameter tokens is
    answered by the editor itself, with its own two lines and an
    unchanged state, before any class is called.  A class is only ever
    called with exactly the required number of values, and a token
    beyond them is the name. *)
Theorem parameter_count_is_checked_by_editor
    (e : editor) (type_token : string) (tokens : list string)
    (info : shape_info) :
  dict_get shape_types (lower type_token) = Some info ->
  ((length tokens < length (params info))%nat ->
     parse_create e (type_token :: tokens)
     = Rejected (too_few_parameters (lower type_token) info)
     /\ create_shape e (type_token :: tokens)
        = (e, too_few_parameters (lower type_token) info))
  /\ (forall (c : kind) (numeric : list pyval) (name : string),
        parse_create e (type_token :: tokens) = Construct c numeric name ->
        c = class info
        /\ length numeric = length (params info)
        /\ ((length (params info) < length tokens)%nat ->
            tokens !! length (params info) = Some name)).
Proof.
  intros Hd. split.
  - intros Hlt. unfold create_shape.
    rewrite (parse_create_known e type_token tokens info Hd).
    by destruct (Nat.ltb_spec (length tokens) (length (params info)));
      [| lia].
  - intros c numeric name.
    rewrite (parse_create_known e type_token tokens info Hd).
    destruct (Nat.ltb_spec (length tokens) (length (params info)));
      [done |].
    destruct (numeric_params _ _) as [vs |] eqn:Hn; [| done].
    intros [= <- <- <-]. split; [done |]. split.
    + apply numeric_params_length in Hn. rewrite Hn, length_take. lia.
    + intros Hlt.
      destruct (Nat.ltb_spec (length (params info)) (length tokens));
        [| lia].
      destruct (lookup_lt_is_Some_2 tokens (length (params info)) Hlt)
        as [t Ht].
      by rewrite Ht.
Qed.

End CountOfParameters.

Section SessionFacts.
Context `{ShapeLib}.

(** C7.  [delete_shape] with the id of a stored shape takes that one
    entry out of the collection and changes nothing else; with a token
    that is not a number, or a number that is not a key, it changes
    nothing at all. *)
Theorem delete_shape_frame
    (e : editor) (id_token : string) (rest : list string) :
  (forall (k : Z) (s : shape),
      py_int id_token = Some k -> shapes e !! k = Some s ->
      let e' := fst (delete_shape e (id_token :: rest)) in
      shapes e' = delete k (shapes e)
      /\ shapes e' !! k = None
      /\ (forall j : Z, j <> k -> shapes e' !! j = shapes e !! j)
      /\ S (size (shapes e')) = size (shapes e)
      /\ next_id e' = next_id e)
  /\ (py_int id_token = None ->
      delete_shape e (id_token :: rest)
      = (e, [Say "Ошибка: ID должен быть числом"]))
  /\ (forall k : Z,
        py_int id_token = Some k -> shapes e !! k = None ->
        fst (delete_shape e (id_token :: rest)) = e).
Proof.
  unfold delete_shape. split; [| split].
  - intros k s Hk Hs. rewrite Hk, Hs. cbn.
    split; [done |]. split; [apply lookup_delete_eq |].
    split; [by intros j Hj; apply lookup_delete_ne |].
    split; [| done].
    rewrite map_size_delete, Hs.
    assert (size (shapes e) <> 0%nat); [| lia].
    intros Hz. apply map_size_empty_inv in Hz.
    rewrite Hz, lookup_empty in Hs. done.
  - by intros ->.
  - by intros k -> ->.
Qed.

Lemma editor_eq (e : editor) (m : gmap Z shape) (n : Z) :
  m = shapes e -> n = next_id e -> {| shapes := m; next_id := n |} = e.
Proof. intros -> ->. by destruct e. Qed.

(** C8.  Asking for the info of a shape is a read.  Whatever
    [get_info()] does to the object it is called on, [show_shape_info]
    keeps the counter and the keys and touches no other shape.  When
    [get_info()] writes nothing, as the spec has it, the editor is the
    same afterwards, a second request prints the same lines, two calls
    of [get_info()] one after the other on the same shape give the same
    mapping, and [show_shape_info] is the function of that name above. *)
Theorem info_is_a_pure_read
    (step : shape -> info * shape) (e : editor) (args : list string) :
  next_id (fst (show_shape_info_call step e args)) = next_id e
  /\ dom (shapes (fst (show_shape_info_call step e args))) = dom (shapes e)
  /\ (forall j : Z,
        shapes (fst (show_shape_info_call step e args)) !! j
        = shapes e !! j
        \/ exists id_token rest s,
             args = id_token :: rest /\ py_int id_token = Some j
             /\ shapes e !! j = Some s
             /\ shapes (fst (show_shape_info_call step e args)) !! j
                = Some (snd (step s)))
  /\ (reads step ->
      fst (show_shape_info_call step e args) = e
      /\ show_shape_info_call step
           (fst (show_shape_info_call step e args)) args
         = show_shape_info_call step e args
      /\ (forall s : shape, step (snd (step s)) = step s)
      /\ ((forall s : shape, get_info s = fst (step s)) ->
          show_shape_info e args = show_shape_info_call step e args)
      /\ forall (id_token : string) (rest : list string) (k : Z)
                (s : shape),
           args = id_token :: rest ->
           py_int id_token = Some k -> shapes e !! k = Some s ->
           snd (show_shape_info_call step e args)
           = [ Say (nl +:+ "Информация о фигуре " +:+ str_of_int k
                    +:+ ":");
               SayInfo (fst (step s)) ])
  /\ reads get_info_call
  /\ (forall s : shape, fst (get_info_call s) = describe s).
Proof.
  assert (Hread : reads step ->
                  fst (show_shape_info_call step e args) = e).
  { intros Hstep. unfold show_shape_info_call.
    destruct args as [| id_token rest]; [done |].
    destruct (py_int id_token) as [k |]; [| done].
    destruct (shapes e !! k) as [s |] eqn:Hs; [| done].
    specialize (Hstep s). destruct (step s) as [i s']. cbn in *. subst s'.
    apply editor_eq; [by apply insert_id | done]. }
  split; [| split; [| split; [| split; [| split]]]].
  - unfold show_shape_info_call.
    destruct args as [| id_token rest]; [done |].
    destruct (py_int id_token) as [k |]; [| done].
    destruct (shapes e !! k) as [s |]; [| done].
    by destruct (step s).
  - unfold show_shape_info_call.
    destruct args as [| id_token rest]; [done |].
    destruct (py_int id_token) as [k |]; [| done].
    destruct (shapes e !! k) as [s |] eqn:Hs; [| done].
    destruct (step s) as [i s']. cbn [fst shapes].
    by apply dom_insert_lookup_L.
  - intros j. unfold show_shape_info_call.
    destruct args as [| id_token rest]; [by left |].
    destruct (py_int id_token) as [k |] eqn:Hk; [| by left].
    destruct (shapes e !! k) as [s |] eqn:Hs; [| by left].
    destruct (step s) as [i s'] eqn:Hstep. cbn [fst shapes].
    destruct (decide (j = k)) as [-> | Hj].
    + right. exists id_token, rest, s. rewrite Hstep, lookup_insert_eq.
      done.
    + left. by rewrite lookup_insert_ne.
  - intros Hstep. split; [by apply Hread |]. split; [| split; [| split]].
    + by rewrite (Hread Hstep).
    + intros s. by rewrite (Hstep s).
    + intros Hinfo. unfold show_shape_info, show_shape_info_call.
      destruct args as [| id_token rest]; [done |].
      destruct (py_int id_token) as [k |]; [| done].
      destruct (shapes e !! k) as [s |] eqn:Hs; [| done].
      rewrite Hinfo. specialize (Hstep s).
      destruct (step s) as [i s']. cbn in *. subst s'.
      f_equal. symmetry. apply editor_eq; [by apply insert_id | done].
    + intros id_token rest k s -> Hk Hs. unfold show_shape_info_call.
      rewrite Hk, Hs. by destruct (step s).
  - by intros s.
  - done.
Qed.

Lemma assigned_ids_listed (l : list (Z * shape)) :
  assigned_ids (map (fun entry => SayListed (fst entry) (snd entry)) l) = [].
Proof. by induction l. Qed.

(** What one command does to the counter and which id it gives out. *)
Lemma call_next_id (c : command) (e : editor) (args : list string) :
  (assigned_ids (snd (fst (call c e args))) = []
   /\ next_id (fst (fst (call c e args))) = next_id e)
  \/ (assigned_ids (snd (fst (call c e args))) = [next_id e]
      /\ next_id (fst (fst (call c e args))) = next_id e + 1).
Proof.
  destruct c; cbn [call fst snd].
  - by left.
  - destruct (create_shape_cases e args)
      as [(printed & _ & -> & Hi) | [(k & n & nm & ex & _ & _ & ->)
                                    | (k & n & nm & s & _ & _ & ->)]].
    + by left.
    + by left.
    + by right.
  - left. unfold list_shapes. case_bool_decide; [done |].
    cbn [fst snd]. split; [| done].
    apply (assigned_ids_listed (merge_sort key_le (map_to_list (shapes e)))).
  - left. unfold show_shape_info.
    destruct args as [| t r]; [done |].
    destruct (py_int t) as [k |]; [| done].
    by destruct (shapes e !! k).
  - left. unfold delete_shape.
    destruct args as [| t r]; [done |].
    destruct (py_int t) as [k |]; [| done].
    by destruct (shapes e !! k).
  - by left.
  - by left.
Qed.

Lemma process_command_next_id (e : editor) (command_line : string) :
  (assigned_ids (snd (fst (process_command e command_line))) = []
   /\ next_id (fst (fst (process_command e command_line))) = next_id e)
  \/ (assigned_ids (snd (fst (process_command e command_line)))
      = [next_id e]
      /\ next_id (fst (fst (process_command e command_line)))
         = next_id e + 1).
Proof.
  unfold process_command.
  destruct (split (strip command_line)) as [| first args]; [by left |].
  destruct (dict_get commands (lower first)) as [c |]; [| by left].
  apply call_next_id.
Qed.

(** Over a whole session the ids given out increase and lie between the
    counter at the start and the counter at the end. *)
Lemma run_loop_ids (inputs : list string) (e : editor) :
  next_id e <= next_id (fst (run_loop e inputs))
  /\ StronglySorted Z.lt (assigned_ids (snd (run_loop e inputs)))
  /\ Forall (fun i => next_id e <= i < next_id (fst (run_loop e inputs)))
            (assigned_ids (snd (run_loop e inputs))).
Proof.
  revert e. induction inputs as [| command_line rest IH]; intros e.
  - cbn. split; [lia |]. split; constructor.
  - cbn [run_loop].
    pose proof (process_command_next_id e command_line) as Hstep.
    destruct (process_command e command_line) as [[e1 printed] ctl].
    cbn [fst snd] in Hstep.
    destruct ctl.
    + specialize (IH e1). destruct (run_loop e1 rest) as [e2 printed'].
      cbn [fst snd] in *. unfold assigned_ids in *. rewrite omap_app.
      destruct IH as (Hle & Hsorted & Hall).
      destruct Hstep as [[-> Hn] | [-> Hn]]; cbn [app].
      * split; [lia |]. split; [done |].
        eapply Forall_impl; [exact Hall |]. cbn beta. lia.
      * split; [lia |]. split.
        -- constructor; [done |].
           eapply Forall_impl; [exact Hall |]. cbn beta. lia.
        -- constructor; [lia |].
           eapply Forall_impl; [exact Hall |]. cbn beta. lia.
    + cbn [fst snd].
      destruct Hstep as [[-> Hn] | [-> Hn]].
      * split; [lia |]. split; constructor.
      * split; [lia |]. split; repeat constructor; lia.
Qed.

Lemma increasing_NoDup (l : list Z) : StronglySorted Z.lt l -> NoDup l.
Proof.
  induction 1 as [| x l _ IH Hx]; [constructor |].
  apply NoDup_cons. split; [| done].
  intros Hin. rewrite Forall_forall in Hx. specialize (Hx x Hin). lia.
Qed.

(** C9.  Ids are not given twice.  Deleting and clearing leave the
    counter alone, no command lowers it, and over any session started in
    any state the ids given out are increasing, hence pairwise
    different, and none is below the counter the session started with. *)
Theorem ids_are_never_reused (e : editor) (inputs : list string) :
  (forall args : list string,
      next_id (fst (delete_shape e args)) = next_id e)
  /\ (forall args : list string,
        next_id (fst (clear_shapes e args)) = next_id e)
  /\ (forall args : list string,
        next_id (fst (create_shape e args)) = next_id e
        \/ next_id (fst (create_shape e args)) = next_id e + 1)
  /\ (forall command_line : string,
        next_id e <= next_id (fst (fst (process_command e command_line))))
  /\ next_id e <= next_id (fst (run_loop e inputs))
  /\ StronglySorted Z.lt (assigned_ids (snd (run_loop e inputs)))
  /\ NoDup (assigned_ids (snd (run_loop e inputs)))
  /\ Forall (fun i => next_id e <= i < next_id (fst (run_loop e inputs)))
            (assigned_ids (snd (run_loop e inputs))).
Proof.
  split; [| split; [| split; [| split]]].
  - intros args. destruct (call_next_id Delete e args) as [[_ Hn] | [Hi _]].
    + exact Hn.
    + cbn [call fst snd] in Hi. unfold delete_shape in Hi.
      destruct args as [| t r]; [done |].
      destruct (py_int t) as [k |]; [| done].
      by destruct (shapes e !! k).
  - done.
  - intros args. destruct (call_next_id Create e args) as [[_ Hn] | [_ Hn]];
      cbn [call fst] in Hn; [by left | by right].
  - intros command_line.
    destruct (process_command_next_id e command_line) as [[_ ->] | [_ ->]];
      lia.
  - destruct (run_loop_ids inputs e) as (Hle & Hsorted & Hall).
    split; [done |]. split; [done |]. split; [| done].
    by apply increasing_NoDup.
Qed.

End SessionFacts.

(** ** The classes of the specification *)

Lemma non_positive_not_positive (v : pyval) :
  non_positive v = true -> is_positive v = false.
Proof.
  destruct v as [n | f]; cbn.
  - intros Hn. apply Z.leb_le in Hn. apply Z.ltb_ge. lia.
  - destruct f as [s | s | | s m x]; try destruct s; done.
Qed.

Lemma check_size_non_positive (param : string) (v : pyval) :
  non_positive v = true ->
  exists reason, check_size param v = Raise (ValidationError param reason).
Proof.
  intros Hv. unfold check_size.
  rewrite (non_positive_not_positive v Hv).
  destruct (is_finite v); cbn; eauto.
Qed.

Lemma check_size_ok (param : string) (v : pyval) :
  is_finite v = true -> is_positive v = true -> check_size param v = Ok v.
Proof. intros Hf Hp. unfold check_size. by rewrite Hf, Hp. Qed.

Lemma check_coord_ok (param : string) (v : pyval) :
  is_finite v = true -> check_coord param v = Ok v.
Proof. intros Hf. unfold check_coord. by rewrite Hf. Qed.

Lemma check_count_ok (param : string) (n : Z) :
  3 <= n -> check_count param (VInt n) = Ok n.
Proof.
  intros Hn. unfold check_count.
  destruct (Z.leb_spec n 0); [lia |]. by destruct (Z.ltb_spec n 3); [lia |].
Qed.

Lemma check_coord_cases (param : string) (v : pyval) :
  check_coord param v = Ok v
  \/ check_coord param v = Raise (ValidationError param NonNumeric).
Proof. unfold check_coord. destruct (is_finite v); eauto. Qed.

Lemma check_size_cases (param : string) (v : pyval) :
  check_size param v = Ok v
  \/ exists reason, check_size param v = Raise (ValidationError param reason).
Proof.
  unfold check_size. destruct (is_finite v), (is_positive v); cbn; eauto.
Qed.

Lemma check_count_cases (param : string) (v : pyval) :
  (exists n, check_count param v = Ok n)
  \/ exists reason, check_count param v = Raise (ValidationError param reason).
Proof.
  unfold check_count. destruct v as [n | f]; [| eauto].
  destruct (n <=? 0); [eauto |]. destruct (n <? 3); eauto.
Qed.

(** Whatever the parameters, a constructor that does not return raises
    a [ValidationError]. *)
Lemma construct_raises_validation_error
    (k : kind) (values : list pyval) (name : string) (ex : exn) :
  construct k values name = Raise ex ->
  exists param reason, ex = ValidationError param reason.
Proof.
  unfold construct, validate.
  destruct k; do 7 (try destruct values as [| ? values]);
    try (intros [= <-]; eauto; fail); cbn;
    repeat match goal with
      | |- context [check_coord ?p ?v] =>
          destruct (check_coord_cases p v) as [-> | ->]; cbn
      | |- context [check_size ?p ?v] =>
          destruct (check_size_cases p v) as [-> | [? ->]]; cbn
      | |- context [check_count ?p ?v] =>
          destruct (check_count_cases p v) as [[? ->] | [? ->]]; cbn
      end;
    intros [= <-]; eauto.
Qed.

(** A list of values of the wrong length raises too. *)
Lemma construct_wrong_count
    (key : string) (info : shape_info) (values : list pyval)
    (name : string) :
  dict_get shape_types key = Some info ->
  length values <> length (params info) ->
  construct (class info) values name
  = Raise (ValidationError "parameters" WrongArity).
Proof.
  intros Hd Hlen.
  apply dict_get_elem_of in Hd. unfold shape_types in Hd.
  repeat (apply elem_of_cons in Hd as [[= -> ->] | Hd];
    [ cbn [class params length] in *;
      do 7 (try destruct values as [| ? values]);
      try reflexivity; by destruct Hlen
    | ]).
  by apply elem_of_nil in Hd.
Qed.

(** C4.  For every entry of the registry: a value that is zero or
    negative in the place of a size parameter makes the constructor raise
    a [ValidationError]; with positive finite sizes (and a side count of
    at least three) any finite coordinates, of any sign, construct the
    shape; and when [create_shape] calls the class with such a size it
    prints that error and leaves the editor as it was. *)
Theorem sizes_are_validated_coordinates_are_free
    (key : string) (info : shape_info) (values : list pyval)
    (name : string) :
  dict_get shape_types key = Some info ->
  (forall (i : nat) (p : string) (v : pyval),
      params info !! i = Some p -> values !! i = Some v ->
      is_size_name p = true -> non_positive v = true ->
      exists param reason,
        construct (class info) values name
        = Raise (ValidationError param reason))
  /\ (length values = length (params info) ->
      (forall (i : nat) (p : string) (v : pyval),
          params info !! i = Some p -> values !! i = Some v ->
          (is_coord_name p = true -> is_finite v = true)
          /\ (is_size_name p = true ->
              is_finite v = true /\ is_positive v = true)
          /\ (p = "num_sides" -> exists n, v = VInt n /\ 3 <= n)) ->
      exists g,
        construct (class info) values name
        = Ok {| shape_id := None; shape_name := name; shape_geom := g |}
        /\ kind_of g = class info)
  /\ (forall (e : editor) (args : list string) (i : nat) (p : string)
             (v : pyval),
        parse_create e args = Construct (class info) values name ->
        params info !! i = Some p -> values !! i = Some v ->
        is_size_name p = true -> non_positive v = true ->
        exists param reason,
          create_shape e args
          = (e, [SayCreateFailed (ValidationError param reason)])).
Proof.
  intros Hd.
  assert (Hraises : forall (i : nat) (p : string) (v : pyval),
             params info !! i = Some p -> values !! i = Some v ->
             is_size_name p = true -> non_positive v = true ->
             exists param reason,
               construct (class info) values name
               = Raise (ValidationError param reason)).
  { intros i p v Hp Hv Hsize Hneg.
    destruct (construct (class info) values name) as [s | ex] eqn:Hc;
      [| destruct (construct_raises_validation_error _ _ _ _ Hc)
           as (param & reason & ->); eauto].
    exfalso. revert Hc.
    destruct (check_size_non_positive p v Hneg) as [reason Hraise].
    apply dict_get_elem_of in Hd. unfold shape_types in Hd.
    repeat (apply elem_of_cons in Hd as [[= -> ->] | Hd];
      [ cbn [class params] in *;
        repeat (destruct i as [| i]; cbn in Hp;
                [injection Hp as <-; try discriminate Hsize |]);
        try discriminate Hp;
        unfold construct, validate;
        do 7 (try destruct values as [| ? values]); try discriminate Hv;
        try (intros [=]; fail);
        cbn in Hv; injection Hv as ->;
        repeat match goal with
          | |- context [check_coord ?q ?w] =>
              destruct (check_coord_cases q w) as [-> | ->]; cbn
          | |- context [check_count ?q ?w] =>
              destruct (check_count_cases q w) as [[? ->] | [? ->]]; cbn
          | |- context [check_size ?q v] => rewrite Hraise; cbn
          | |- context [check_size ?q ?w] =>
              destruct (check_size_cases q w) as [-> | [? ->]]; cbn
          end;
        by intros [=]
      | ]).
    by apply elem_of_nil in Hd. }
  split; [exact Hraises |]. split.
  - intros Hlen Hall.
    apply dict_get_elem_of in Hd. unfold shape_types in Hd.
    repeat (apply elem_of_cons in Hd as [[= -> ->] | Hd];
      [ cbn [class params length] in *;
        repeat (destruct values as [| ? values]; try discriminate Hlen);
        pose proof (Hall 0%nat _ _ eq_refl eq_refl) as (H0c & H0s & H0n);
        pose proof (Hall 1%nat _ _ eq_refl eq_refl) as (H1c & H1s & H1n);
        try pose proof (Hall 2%nat _ _ eq_refl eq_refl) as (H2c & H2s & H2n);
        try pose proof (Hall 3%nat _ _ eq_refl eq_refl) as (H3c & H3s & H3n);
        try pose proof (Hall 4%nat _ _ eq_refl eq_refl) as (H4c & H4s & H4n);
        try pose proof (Hall 5%nat _ _ eq_refl eq_refl) as (H5c & H5s & H5n);
        unfold construct, validate;
        repeat match goal with
          | Hc : is_coord_name _ = true -> _ |- _ =>
              first [ specialize (Hc eq_refl) | clear Hc ]
          | Hs : is_size_name _ = true -> _ |- _ =>
              first [ specialize (Hs eq_refl); destruct Hs | clear Hs ]
          | Hn : _ = "num_sides" -> _ |- _ =>
              first [ destruct (Hn eq_refl) as (? & -> & ?); clear Hn
                    | clear Hn ]
          end;
        repeat first
          [ rewrite check_size_ok by done
          | rewrite check_coord_ok by done
          | rewrite check_count_ok by done
          | progress cbn [mbind result_bind] ];
        by eexists
      | ]).
    by apply elem_of_nil in Hd.
  - intros e args i p v Hparse Hp Hv Hsize Hneg.
    destruct (Hraises i p v Hp Hv Hsize Hneg) as (param & reason & Hc).
    exists param, reason. unfold create_shape. rewrite Hparse.
    cbn [shape_class spec_shapes]. by rewrite Hc.
Qed.

(** ** The theorems on concrete sessions *)

(** C1 on [create circle 0 0 -1]: the radius is refused by the class and
    the fresh editor stays fresh. *)
Lemma create_failure_keeps_state_witness :
  parse_create init ["circle"; "0"; "0"; "-1"]
  = Construct Circle
      [ VFloat (S754_zero false); VFloat (S754_zero false);
        VFloat (S754_finite true 4503599627370496 (-52)) ]
      "Circle 1"
  /\ shape_class Circle
       [ VFloat (S754_zero false); VFloat (S754_zero false);
         VFloat (S754_finite true 4503599627370496 (-52)) ]
       "Circle 1"
     = Raise (ValidationError "radius" NonPositive)
  /\ create_shape init ["circle"; "0"; "0"; "-1"]
     = (init, [SayCreateFailed (ValidationError "radius" NonPositive)])
  /\ shapes (fst (create_shape init ["circle"; "0"; "0"; "-1"])) = ∅
  /\ next_id (fst (create_shape init ["circle"; "0"; "0"; "-1"])) = 1.
Proof.
  split; [reflexivity |]. split; [reflexivity |].
  apply (create_failure_keeps_state init ["circle"; "0"; "0"; "-1"] Circle
           [ VFloat (S754_zero false); VFloat (S754_zero false);
             VFloat (S754_finite true 4503599627370496 (-52)) ]
           "Circle 1" (ValidationError "radius" NonPositive));
    reflexivity.
Defined.

(** C2 on the state after [create point 1 2], and on the creation of a
    circle from there: it is stored under 2 and the counter becomes 3. *)
Lemma ids_assigned_by_editor_and_unique_witness :
  reachable (fst (fst (process_command init "create point 1 2")))
  /\ unique_ids (fst (fst (process_command init "create point 1 2")))
  /\ next_id (fst (fst (process_command init "create point 1 2"))) = 2
  /\ next_id
       (fst (create_shape
               (fst (fst (process_command init "create point 1 2")))
               ["circle"; "0"; "0"; "1"])) = 2 + 1
  /\ unique_ids
       (fst (create_shape
               (fst (fst (process_command init "create point 1 2")))
               ["circle"; "0"; "0"; "1"])).
Proof.
  assert (Hr : reachable (fst (fst (process_command init "create point 1 2"))))
    by apply (reachable_step init), reachable_init.
  destruct (ids_assigned_by_editor_and_unique _ Hr) as [Hu Hc].
  split; [exact Hr |]. split; [exact Hu |]. split; [reflexivity |].
  destruct (Hc ["circle"; "0"; "0"; "1"] Circle
              [ VFloat (S754_zero false); VFloat (S754_zero false);
                VFloat (S754_finite false 4503599627370496 (-52)) ]
              "Circle 2"
              {| shape_id := None; shape_name := "Circle 2";
                 shape_geom :=
                   GCircle (VFloat (S754_zero false))
                     (VFloat (S754_zero false))
                     (VFloat (S754_finite false 4503599627370496 (-52))) |}
              eq_refl eq_refl)
    as (_ & _ & Hn & _ & Hu').
  split; [exact Hn | exact Hu'].
Defined.

(** C3 as first stated fails on [create polygon 0 0 3.5 1]: four tokens,
    each a number for [float], yet the command line itself answers that
    the parameters must be numbers and calls no class, because [int]
    refuses the side count; with 3 in its place the class is called. *)
Lemma side_count_is_checked_by_command_line :
  py_float "0" = Some (S754_zero false)
  /\ py_float "3.5" = Some (S754_finite false 7881299347898368 (-51))
  /\ py_float "1" = Some (S754_finite false 4503599627370496 (-52))
  /\ py_int "3.5" = None
  /\ parse_create init ["polygon"; "0"; "0"; "3.5"; "1"]
     = Rejected [Say "Ошибка: Параметры должны быть числами"]
  /\ create_shape init ["polygon"; "0"; "0"; "3.5"; "1"]
     = (init, [Say "Ошибка: Параметры должны быть числами"])
  /\ parse_create init ["polygon"; "0"; "0"; "3"; "1"]
     = Construct RegularPolygon
         [ VFloat (S754_zero false); VFloat (S754_zero false); VInt 3;
           VFloat (S754_finite false 4503599627370496 (-52)) ]
         "Polygon 1".
Proof. repeat split; reflexivity. Qed.

(** C3 as the code has it, on [create circle 0 0 -5]: the negative
    radius reaches the class. *)
Lemma command_line_checks_conversion_only_witness :
  dict_get shape_types (lower "circle")
  = Some (ShapeInfo Circle ["center_x"; "center_y"; "radius"]
            "Создать круг: create circle center_x center_y radius [name]")
  /\ length ["0"; "0"; "-5"] = 3%nat
  /\ lower "circle" <> "polygon"
  /\ Forall2 (fun t f => py_float t = Some f) ["0"; "0"; "-5"]
       [ S754_zero false; S754_zero false;
         S754_finite true 5629499534213120 (-50) ]
  /\ exists name,
       parse_create init ("circle" :: ["0"; "0"; "-5"] ++ [])
       = Construct Circle
           (VFloat <$> [ S754_zero false; S754_zero false;
                         S754_finite true 5629499534213120 (-50) ])
           name.
Proof.
  assert (Hne : lower "circle" <> "polygon") by (intros Heq; discriminate Heq).
  assert (Hf : Forall2 (fun t f => py_float t = Some f) ["0"; "0"; "-5"]
                 [ S754_zero false; S754_zero false;
                   S754_finite true 5629499534213120 (-50) ])
    by (repeat apply List.Forall2_cons; try apply List.Forall2_nil;
        reflexivity).
  split; [reflexivity |]. split; [reflexivity |].
  split; [exact Hne |]. split; [exact Hf |].
  destruct (command_line_checks_conversion_only init "circle"
              ["0"; "0"; "-5"] []
              (ShapeInfo Circle ["center_x"; "center_y"; "radius"]
                 "Создать круг: create circle center_x center_y radius [name]")
              eq_refl eq_refl) as (Hfloat & _).
  exact (Hfloat Hne _ Hf).
Defined.

(** C4 on the circle of the registry: the radius of
    [create circle 0 0 -1] raises and the editor prints the error, while
    the centre [(-3, -0.0)] with radius 2 constructs. *)
Lemma sizes_are_validated_coordinates_are_free_witness :
  dict_get shape_types "circle"
  = Some (ShapeInfo Circle ["center_x"; "center_y"; "radius"]
            "Создать круг: create circle center_x center_y radius [name]")
  /\ non_positive (VFloat (S754_finite true 4503599627370496 (-52))) = true
  /\ (exists param reason,
        construct Circle
          [ VFloat (S754_zero false); VFloat (S754_zero false);
            VFloat (S754_finite true 4503599627370496 (-52)) ]
          "Circle 1"
        = Raise (ValidationError param reason))
  /\ (exists param reason,
        create_shape init ["circle"; "0"; "0"; "-1"]
        = (init, [SayCreateFailed (ValidationError param reason)]))
  /\ (exists g,
        construct Circle [VInt (-3); VFloat (S754_zero true); VInt 2] "c"
        = Ok {| shape_id := None; shape_name := "c"; shape_geom := g |}
        /\ kind_of g = Circle).
Proof.
  split; [reflexivity |]. split; [reflexivity |].
  destruct (sizes_are_validated_coordinates_are_free "circle"
              (ShapeInfo Circle ["center_x"; "center_y"; "radius"]
                 "Создать круг: create circle center_x center_y radius [name]")
              [ VFloat (S754_zero false); VFloat (S754_zero false);
                VFloat (S754_finite true 4503599627370496 (-52)) ]
              "Circle 1" eq_refl) as (Hraise & _ & Hprint).
  split.
  { exact (Hraise 2%nat "radius" _ eq_refl eq_refl eq_refl eq_refl). }
  split.
  { exact (Hprint init ["circle"; "0"; "0"; "-1"] 2%nat "radius" _
             eq_refl eq_refl eq_refl eq_refl eq_refl). }
  destruct (sizes_are_validated_coordinates_are_free "circle"
              (ShapeInfo Circle ["center_x"; "center_y"; "radius"]
                 "Создать круг: create circle center_x center_y radius [name]")
              [VInt (-3); VFloat (S754_zero true); VInt 2] "c" eq_refl)
    as (_ & Hok & _).
  apply Hok; [reflexivity |].
  intros i p v Hp Hv.
  destruct i as [| [| [| i]]]; cbn in Hp, Hv; try discriminate Hp;
    injection Hp as <-; injection Hv as <-;
    (split; [| split]); intros Hq; try discriminate Hq;
    try (split; reflexivity); reflexivity.
Defined.

(** C5 on [create rectangle 0 0 3 4]: the shape is named "Rectangle 1". *)
Lemma default_name_is_type_and_id_witness :
  dict_get shape_types (lower "rectangle")
  = Some (ShapeInfo Rectangle ["x"; "y"; "width"; "height"]
            "Создать прямоугольник: create rectangle x y width height [name]")
  /\ (length ["0"; "0"; "3"; "4"] <= 4)%nat
  /\ parse_create init ["rectangle"; "0"; "0"; "3"; "4"]
     = Construct Rectangle
         [ VFloat (S754_zero false); VFloat (S754_zero false);
           VFloat (S754_finite false 6755399441055744 (-51));
           VFloat (S754_finite false 4503599627370496 (-50)) ]
         "Rectangle 1"
  /\ "Rectangle 1"
     = capitalize (lower "rectangle") +:+ " " +:+ str_of_int (next_id init)
  /\ snd (create_shape init ["rectangle"; "0"; "0"; "3"; "4"])
     = [ SayCreated
           {| shape_id := Some 1; shape_name := "Rectangle 1";
              shape_geom :=
                GRectangle (VFloat (S754_zero false))
                  (VFloat (S754_zero false))
                  (VFloat (S754_finite false 6755399441055744 (-51)))
                  (VFloat (S754_finite false 4503599627370496 (-50))) |} ].
Proof.
  split; [reflexivity |]. split; [cbn; lia |]. split; [reflexivity |].
  destruct (default_name_is_type_and_id init "rectangle"
              ["0"; "0"; "3"; "4"]
              (ShapeInfo Rectangle ["x"; "y"; "width"; "height"]
                 "Создать прямоугольник: create rectangle x y width height [name]")
              Rectangle
              [ VFloat (S754_zero false); VFloat (S754_zero false);
                VFloat (S754_finite false 6755399441055744 (-51));
                VFloat (S754_finite false 4503599627370496 (-50)) ]
              "Rectangle 1"
              eq_refl ltac:(cbn; lia) eq_refl)
    as (Hname & _ & _ & _ & Hcreate & _).
  split; [exact Hname |].
  destruct (Hcreate
              {| shape_id := None; shape_name := "Rectangle 1";
                 shape_geom :=
                   GRectangle (VFloat (S754_zero false))
                     (VFloat (S754_zero false))
                     (VFloat (S754_finite false 6755399441055744 (-51)))
                     (VFloat (S754_finite false 4503599627370496 (-50))) |}
              eq_refl) as (Hc & _ & _).
  exact (f_equal snd Hc).
Defined.

(** C5 as first stated fails on [create polygon 0 0 3 1]: the shape of
    class [RegularPolygon] is named "Polygon 1", by the type word of the
    command, and not "RegularPolygon 1", by the variant's type name. *)
Lemma polygon_is_not_named_by_its_variant :
  parse_create init ["polygon"; "0"; "0"; "3"; "1"]
  = Construct RegularPolygon
      [ VFloat (S754_zero false); VFloat (S754_zero false); VInt 3;
        VFloat (S754_finite false 4503599627370496 (-52)) ]
      "Polygon 1"
  /\ snd (create_shape init ["polygon"; "0"; "0"; "3"; "1"])
     = [ SayCreated
           {| shape_id := Some 1; shape_name := "Polygon 1";
              shape_geom :=
                GRegularPolygon (VFloat (S754_zero false))
                  (VFloat (S754_zero false)) 3
                  (VFloat (S754_finite false 4503599627370496 (-52))) |} ]
  /\ type_name RegularPolygon +:+ " " +:+ str_of_int 1 = "RegularPolygon 1"
  /\ "Polygon 1" <> type_name RegularPolygon +:+ " " +:+ str_of_int 1.
Proof. repeat split; try reflexivity. intros Heq. discriminate Heq. Qed.

(** C6 as first stated fails on [create circle 0 0]: the answer is the
    editor's own two lines, no class is called and no [ValidationError]
    is raised; and on [create point 1 2 3 4], where the tokens beyond
    the two coordinates are no error: "3" becomes the name. *)
Lemma wrong_parameter_count_is_no_validation_error :
  parse_create init ["circle"; "0"; "0"]
  = Rejected
      [ Say "Ошибка: Недостаточно параметров для создания фигуры 'circle'";
        Say "Использование: Создать круг: create circle center_x center_y radius [name]" ]
  /\ create_shape init ["circle"; "0"; "0"]
     = (init,
        [ Say "Ошибка: Недостаточно параметров для создания фигуры 'circle'";
          Say "Использование: Создать круг: create circle center_x center_y radius [name]" ])
  /\ parse_create init ["point"; "1"; "2"; "3"; "4"]
     = Construct Point
         [ VFloat (S754_finite false 4503599627370496 (-52));
           VFloat (S754_finite false 4503599627370496 (-51)) ]
         "3"
  /\ snd (create_shape init ["point"; "1"; "2"; "3"; "4"])
     = [ SayCreated
           {| shape_id := Some 1; shape_name := "3";
              shape_geom :=
                GPoint (VFloat (S754_finite false 4503599627370496 (-52)))
                  (VFloat (S754_finite false 4503599627370496 (-51))) |} ].
Proof. repeat split; reflexivity. Qed.

(** C6 as the code has it, on [create circle 0 0] and on
    [create point 1 2 3 4]. *)
Lemma parameter_count_is_checked_by_editor_witness :
  dict_get shape_types (lower "circle")
  = Some (ShapeInfo Circle ["center_x"; "center_y"; "radius"]
            "Создать круг: create circle center_x center_y radius [name]")
  /\ (length ["0"; "0"] < 3)%nat
  /\ create_shape init ["circle"; "0"; "0"]
     = (init,
        too_few_parameters "circle"
          (ShapeInfo Circle ["center_x"; "center_y"; "radius"]
             "Создать круг: create circle center_x center_y radius [name]"))
  /\ length [ VFloat (S754_finite false 4503599627370496 (-52));
              VFloat (S754_finite false 4503599627370496 (-51)) ]
     = 2%nat
  /\ ["1"; "2"; "3"; "4"] !! 2%nat = Some "3".
Proof.
  split; [reflexivity |]. split; [cbn; lia |]. split.
  - destruct (parameter_count_is_checked_by_editor init "circle" ["0"; "0"]
                (ShapeInfo Circle ["center_x"; "center_y"; "radius"]
                   "Создать круг: create circle center_x center_y radius [name]")
                eq_refl) as [Hfew _].
    destruct (Hfew ltac:(cbn; lia)) as [_ Hcreate]. exact Hcreate.
  - destruct (parameter_count_is_checked_by_editor init "point"
                ["1"; "2"; "3"; "4"]
                (ShapeInfo Point ["x"; "y"]
                   "Создать точку: create point x y [name]")
                eq_refl) as [_ Hcall].
    destruct (Hcall Point
                [ VFloat (S754_finite false 4503599627370496 (-52));
                  VFloat (S754_finite false 4503599627370496 (-51)) ]
                "3" eq_refl) as (_ & Hlen & Hname).
    split; [exact Hlen |]. apply Hname. cbn. lia.
Defined.

(** C7 on the editor that holds the point 1: [delete 1] empties it and
    keeps the counter, [delete x] and [delete 7] change nothing. *)
Lemma delete_shape_frame_witness :
  py_int "1" = Some 1
  /\ shapes (fst (create_shape init ["point"; "1"; "2"])) !! 1
     = Some {| shape_id := Some 1; shape_name := "Point 1";
               shape_geom :=
                 GPoint (VFloat (S754_finite false 4503599627370496 (-52)))
                   (VFloat (S754_finite false 4503599627370496 (-51))) |}
  /\ shapes (fst (delete_shape (fst (create_shape init ["point"; "1"; "2"]))
                    ["1"])) !! 1 = None
  /\ next_id (fst (delete_shape (fst (create_shape init ["point"; "1"; "2"]))
                     ["1"])) = 2
  /\ py_int "x" = None
  /\ fst (delete_shape (fst (create_shape init ["point"; "1"; "2"])) ["x"])
     = fst (create_shape init ["point"; "1"; "2"])
  /\ py_int "7" = Some 7
  /\ fst (delete_shape (fst (create_shape init ["point"; "1"; "2"])) ["7"])
     = fst (create_shape init ["point"; "1"; "2"]).
Proof.
  split; [reflexivity |]. split; [reflexivity |].
  destruct (delete_shape_frame (fst (create_shape init ["point"; "1"; "2"]))
              "1" []) as (Hdel & _ & _).
  destruct (Hdel 1 _ eq_refl eq_refl) as (_ & Hgone & _ & _ & Hn).
  split; [exact Hgone |]. split; [exact Hn |].
  split; [reflexivity |].
  destruct (delete_shape_frame (fst (create_shape init ["point"; "1"; "2"]))
              "x" []) as (_ & Hbad & _).
  split; [exact (f_equal fst (Hbad eq_refl)) |].
  split; [reflexivity |].
  destruct (delete_shape_frame (fst (create_shape init ["point"; "1"; "2"]))
              "7" []) as (_ & _ & Hmiss).
  exact (Hmiss 7 eq_refl eq_refl).
Defined.

(** C8 on the editor that holds the point 1, with the [get_info()] of
    the spec: [info 1] prints the mapping of the point and leaves the
    editor as it is. *)
Lemma info_is_a_pure_read_witness :
  reads get_info_call
  /\ fst (show_shape_info_call get_info_call
            (fst (create_shape init ["point"; "1"; "2"])) ["1"])
     = fst (create_shape init ["point"; "1"; "2"])
  /\ show_shape_info (fst (create_shape init ["point"; "1"; "2"])) ["1"]
     = show_shape_info_call get_info_call
         (fst (create_shape init ["point"; "1"; "2"])) ["1"]
  /\ snd (show_shape_info_call get_info_call
            (fst (create_shape init ["point"; "1"; "2"])) ["1"])
     = [ Say (nl +:+ "Информация о фигуре " +:+ str_of_int 1 +:+ ":");
         SayInfo
           [ ("id", IId (Some 1)); ("name", IStr "Point 1");
             ("type", IStr "Point");
             ("x", INum (VFloat (S754_finite false 4503599627370496 (-52))));
             ("y", INum (VFloat (S754_finite false 4503599627370496 (-51))))
           ] ].
Proof.
  assert (Hreads : reads get_info_call) by (intros s; reflexivity).
  destruct (info_is_a_pure_read get_info_call
              (fst (create_shape init ["point"; "1"; "2"])) ["1"])
    as (_ & _ & _ & Hpure & _).
  destruct (Hpure Hreads) as (Hstate & _ & _ & Hsame & Hinfo).
  split; [exact Hreads |]. split; [exact Hstate |].
  split; [exact (Hsame (fun s => eq_refl)) |].
  exact (Hinfo "1" [] 1 _ eq_refl eq_refl eq_refl).
Defined.

(** A [get_info()] that wrote to its object would show in the editor:
    with one that renames the shape, [info 1] leaves the point under
    another name. *)
Example writing_get_info_changes_the_editor :
  shape_name
    <$> shapes
          (fst (show_shape_info_call
                  (fun s => (describe s,
                             {| shape_id := shape_id s;
                                shape_name := "seen";
                                shape_geom := shape_geom s |}))
                  (fst (create_shape init ["point"; "1"; "2"])) ["1"]))
        !! 1
  = Some "seen"
  /\ shape_name <$> shapes (fst (create_shape init ["point"; "1"; "2"])) !! 1
     = Some "Point 1".
Proof. split; reflexivity. Qed.

(** C9 on a session with a deletion and a clearing between creations:
    the ids given out are 1, 2, 3, 4 and the counter ends at 5. *)
Example ids_of_a_session :
  assigned_ids
    (snd (run_loop init
            [ "create point 1 2"; "create circle 0 0 1"; "delete 1";
              "create square 0 0 2"; "clear"; "create line 0 0 3 4" ]))
  = [1; 2; 3; 4]
  /\ next_id
       (fst (run_loop init
               [ "create point 1 2"; "create circle 0 0 1"; "delete 1";
                 "create square 0 0 2"; "clear"; "create line 0 0 3 4" ]))
     = 5.
Proof. split; reflexivity. Qed.

(** C10 on [create polygon 5 5 5 5]: all four values are [int]s. *)
Lemma polygon_tokens_equal_to_num_sides_are_int_witness :
  lower "polygon" = "polygon"
  /\ parse_create init ["polygon"; "5"; "5"; "5"; "5"]
     = Construct RegularPolygon [VInt 5; VInt 5; VInt 5; VInt 5] "Polygon 1"
  /\ exists (k : Z) (vx vy va : pyval),
       py_int "5" = Some k
       /\ [VInt 5; VInt 5; VInt 5; VInt 5] = [vx; vy; VInt k; va]
       /\ vx = VInt k /\ vy = VInt k /\ va = VInt k.
Proof.
  split; [reflexivity |]. split; [reflexivity |].
  destruct (polygon_tokens_equal_to_num_sides_are_int init
              "polygon" "5" "5" "5" "5" [] RegularPolygon
              [VInt 5; VInt 5; VInt 5; VInt 5] "Polygon 1" eq_refl eq_refl)
    as (_ & k & vx & vy & va & Hk & Hnum & Hx & Hy & Ha & _).
  exists k, vx, vy, va.
  split; [exact Hk |]. split; [exact Hnum |].
  split; [exact (Hx eq_refl) |]. split; [exact (Hy eq_refl) |].
  exact (Ha eq_refl).
Defined.

(** ** The other commands *)

Section OtherCommands.
Context `{ShapeLib}.

(** X1.  [list_shapes] prints the one line of the empty list exactly when
    nothing is stored; otherwise a heading and one line for every stored
    shape, each under its key and none twice.  It changes nothing. *)
Theorem list_shapes_lists_the_stored (e : editor) (args : list string) :
  fst (list_shapes e args) = e
  /\ (shapes e = ∅ -> snd (list_shapes e args) = [Say "Список фигур пуст"])
  /\ (shapes e <> ∅ ->
      exists entries : list (Z * shape),
        snd (list_shapes e args)
        = Say (nl +:+ "Список фигур:")
          :: map (fun entry => SayListed (fst entry) (snd entry)) entries
        /\ length entries = size (shapes e)
        /\ NoDup (fst <$> entries)
        /\ forall (k : Z) (s : shape),
             (k, s) ∈ entries <-> shapes e !! k = Some s).
Proof.
  split; [apply list_shapes_state |]. unfold list_shapes. split.
  - intros He. by rewrite bool_decide_eq_true_2.
  - intros He. rewrite bool_decide_eq_false_2 by done. cbn [snd].
    exists (merge_sort key_le (map_to_list (shapes e))).
    pose proof (merge_sort_Permutation key_le (map_to_list (shapes e)))
      as Hperm.
    split; [done |]. split; [| split].
    + rewrite Hperm. apply length_map_to_list.
    + rewrite Hperm. apply NoDup_fst_map_to_list.
    + intros k s. rewrite Hperm. apply elem_of_map_to_list.
Qed.

(** X2.  [clear_shapes] prints how many shapes were stored, leaves none and
    keeps the counter.  Afterwards the list is empty, no id is found by
    [info] or [delete], and clearing again removes 0 shapes. *)
Theorem clear_shapes_empties
    (e : editor) (args args' : list string) :
  clear_shapes e args
  = ({| shapes := ∅; next_id := next_id e |},
     [Say ("Удалено фигур: " +:+ str_of_int (Z.of_nat (size (shapes e))))])
  /\ list_shapes (fst (clear_shapes e args)) args'
     = (fst (clear_shapes e args), [Say "Список фигур пуст"])
  /\ clear_shapes (fst (clear_shapes e args)) args'
     = (fst (clear_shapes e args), [Say "Удалено фигур: 0"])
  /\ forall (id_token : string) (rest : list string) (k : Z),
       py_int id_token = Some k ->
       show_shape_info (fst (clear_shapes e args)) (id_token :: rest)
       = (fst (clear_shapes e args),
          [Say ("Ошибка: Фигура с ID " +:+ str_of_int k +:+ " не найдена")])
       /\ delete_shape (fst (clear_shapes e args)) (id_token :: rest)
          = (fst (clear_shapes e args),
             [Say ("Ошибка: Фигура с ID " +:+ str_of_int k
                   +:+ " не найдена")]).
Proof.
  split; [done |]. split; [| split].
  - unfold list_shapes. cbn [clear_shapes fst shapes].
    by rewrite bool_decide_eq_true_2.
  - unfold clear_shapes. cbn [fst shapes next_id].
    by rewrite map_size_empty.
  - intros id_token rest k Hk.
    unfold show_shape_info, delete_shape. rewrite Hk.
    cbn [clear_shapes fst shapes]. by rewrite lookup_empty.
Qed.

(** X3.  Deleting the same id a second time finds nothing: the second
    [delete] prints that the shape is not found and changes nothing, and
    so does [info], whether or not the first [delete] removed a shape. *)
Theorem delete_shape_twice
    (e : editor) (id_token : string) (rest rest' : list string) (k : Z) :
  py_int id_token = Some k ->
  shapes (fst (delete_shape e (id_token :: rest))) !! k = None
  /\ delete_shape (fst (delete_shape e (id_token :: rest)))
       (id_token :: rest')
     = (fst (delete_shape e (id_token :: rest)),
        [Say ("Ошибка: Фигура с ID " +:+ str_of_int k +:+ " не найдена")])
  /\ show_shape_info (fst (delete_shape e (id_token :: rest)))
       (id_token :: rest')
     = (fst (delete_shape e (id_token :: rest)),
        [Say ("Ошибка: Фигура с ID " +:+ str_of_int k +:+ " не найдена")]).
Proof.
  intros Hk.
  assert (Hgone : shapes (fst (delete_shape e (id_token :: rest))) !! k
                  = None).
  { unfold delete_shape. rewrite Hk.
    destruct (shapes e !! k) as [s |] eqn:Hs; cbn [fst shapes]; [| done].
    apply lookup_delete_eq. }
  split; [exact Hgone |].
  unfold delete_shape at 1, show_shape_info at 1. by rewrite Hk, Hgone.
Qed.

(** Which word of [self.commands] a lower-cased word is. *)
Lemma commands_lookup (word : string) :
  match dict_get commands word with
  | Some Help => word = "help"
  | Some Create => word = "create"
  | Some List => word = "list"
  | Some Info => word = "info"
  | Some Delete => word = "delete"
  | Some Clear => word = "clear"
  | Some Exit => word = "exit"
  | None =>
      word ∉ ["help"; "create"; "list"; "info"; "delete"; "clear"; "exit"]
  end.
Proof.
  unfold commands, dict_get.
  repeat (case_bool_decide; [done |]).
  rewrite !not_elem_of_cons. repeat split; try done. apply not_elem_of_nil.
Qed.

Lemma process_command_stops (e : editor) (command_line : string) :
  (snd (process_command e command_line) = Stop <-> exit_line command_line)
  /\ (snd (process_command e command_line) = Stop ->
      process_command e command_line
      = ((e, [Say "Выход из редактора"]), Stop)).
Proof.
  unfold exit_line, process_command.
  destruct (split (strip command_line)) as [| first args] eqn:Hs.
  { split; [| done]. split; [done |]. by intros (f & a & [=] & _). }
  pose proof (commands_lookup (lower first)) as Hw.
  destruct (dict_get commands (lower first)) as [c |] eqn:Hc.
  - destruct c; cbn [call snd]; (split; [split |]); try done;
      try (intros (f & a & [= <- <-] & Hexit); rewrite Hexit in Hw;
           done).
    intros _. by exists first, args.
  - cbn [snd]. split; [split |]; try done.
    intros (f & a & [= <- <-] & Hexit). rewrite Hexit in Hw.
    exfalso. apply Hw. rewrite !elem_of_cons. tauto.
Qed.

(** X5.  Only [exit] ends the session: a command line stops the loop exactly
    when its first word, in lower case, is [exit]; then it prints the
    farewell and leaves the editor as it is. *)
Theorem only_exit_stops (e : editor) (command_line : string) :
  (snd (process_command e command_line) = Stop
   <-> exists first args,
         split (strip command_line) = first :: args
         /\ lower first = "exit")
  /\ (snd (process_command e command_line) = Stop ->
      process_command e command_line
      = ((e, [Say "Выход из редактора"]), Stop)).
Proof. apply process_command_stops. Qed.

(** X6.  Only [create], [delete] and [clear] can change the editor: after any
    other command line (help, list, info, exit, an unknown word, an
    empty line) the editor is the one before. *)
Theorem only_three_commands_change_the_editor
    (e : editor) (command_line : string) :
  fst (fst (process_command e command_line)) <> e ->
  exists first args,
    split (strip command_line) = first :: args
    /\ lower first ∈ ["create"; "delete"; "clear"].
Proof.
  unfold process_command.
  destruct (split (strip command_line)) as [| first args] eqn:Hs; [done |].
  pose proof (commands_lookup (lower first)) as Hw.
  destruct (dict_get commands (lower first)) as [c |] eqn:Hc; [| done].
  intros Hne. exists first, args. split; [done |].
  destruct c; cbn [call fst] in Hne;
    rewrite ?list_shapes_state, ?show_shape_info_state in Hne;
    rewrite Hw, !elem_of_cons; tauto.
Qed.

End OtherCommands.

(** ** Command lines and sessions *)

Lemma chars_text (l : list ascii) : chars (text l) = l.
Proof. apply list_ascii_of_string_of_list_ascii. Qed.

(** [lstrip] takes white space off the front and nothing else. *)
Lemma lstrip_spec (l : list ascii) :
  exists blanks,
    l = blanks ++ lstrip l /\ Forall (fun c => is_space c = true) blanks.
Proof.
  induction l as [| c l (blanks & Hl & Hb)]; [by exists [] |].
  cbn [lstrip]. destruct (is_space c) eqn:Hc.
  - exists (c :: blanks). split; [by rewrite Hl at 1 | by constructor].
  - by exists [].
Qed.

(** [strip] takes white space off both ends and nothing else. *)
Lemma strip_chars_spec (l : list ascii) :
  exists front back,
    l = front ++ strip_chars l ++ back
    /\ Forall (fun c => is_space c = true) front
    /\ Forall (fun c => is_space c = true) back.
Proof.
  unfold strip_chars.
  destruct (lstrip_spec l) as (front & Hl & Hf).
  destruct (lstrip_spec (rev (lstrip l))) as (back & Hr & Hb).
  exists front, (rev back). split; [| split; [done |]].
  - rewrite <- rev_app_distr, <- Hr, rev_involutive. exact Hl.
  - by apply Forall_rev.
Qed.

Lemma lstrip_blank (l : list ascii) :
  Forall (fun c => is_space c = true) l -> lstrip l = [].
Proof. induction 1 as [| c l Hc _ IH]; [done |]. cbn. by rewrite Hc. Qed.

(** [split] gives no token exactly on white space. *)
Lemma split_aux_nil (l cur : list ascii) :
  split_aux cur l = [] <->
  cur = [] /\ Forall (fun c => is_space c = true) l.
Proof.
  revert cur. induction l as [| c l IH]; intros cur; cbn [split_aux].
  - destruct cur; [by split | split; [done | by intros [? _]]].
  - destruct (is_space c) eqn:Hc.
    + destruct cur as [| d cur].
      * rewrite IH. split; intros [? Hl]; (split; [done |]).
        -- by constructor.
        -- by inversion Hl.
      * split; [done | by intros [? _]].
    + rewrite IH. split; [by intros [? _] |].
      intros [_ Hl]. inversion Hl; congruence.
Qed.

Lemma split_strip_nil (command_line : string) :
  split (strip command_line) = [] <->
  Forall (fun c => is_space c = true) (chars command_line).
Proof.
  unfold split, strip. rewrite chars_text, split_aux_nil.
  destruct (strip_chars_spec (chars command_line))
    as (front & back & Hl & Hf & Hb).
  split.
  - intros [_ Hs]. rewrite Hl. rewrite !Forall_app. done.
  - intros Hall. split; [done |].
    rewrite Hl, !Forall_app in Hall. tauto.
Qed.

Section Sessions.
Context `{ShapeLib}.

Lemma create_shape_prints (e : editor) (args : list string) :
  snd (create_shape e args) <> [].
Proof.
  unfold create_shape, parse_create.
  destruct args as [| type_token rest]; [done |].
  destruct (dict_get shape_types (lower type_token)); [| done].
  destruct (_ <? _); [done |].
  destruct (numeric_params _ _); [| done].
  by destruct (shape_class _ _ _).
Qed.

Lemma call_prints (c : command) (e : editor) (args : list string) :
  snd (fst (call c e args)) <> [].
Proof.
  destruct c; cbn [call fst snd]; try done.
  - apply create_shape_prints.
  - unfold list_shapes. by case_bool_decide.
  - unfold show_shape_info. destruct args as [| t r]; [done |].
    destruct (py_int t) as [k |]; [| done]. by destruct (shapes e !! k).
  - unfold delete_shape. destruct args as [| t r]; [done |].
    destruct (py_int t) as [k |]; [| done]. by destruct (shapes e !! k).
Qed.

(** X4.  A command line of white space only (or an empty one) is passed over
    in silence: nothing is printed, nothing changes, the loop goes on.
    Every other command line is answered with at least one line. *)
Theorem only_blank_lines_are_silent (e : editor) (command_line : string) :
  (Forall (fun c => is_space c = true) (chars command_line) ->
   process_command e command_line = ((e, []), Continue))
  /\ (snd (fst (process_command e command_line)) = [] <->
      Forall (fun c => is_space c = true) (chars command_line)).
Proof.
  rewrite <- split_strip_nil. unfold process_command.
  destruct (split (strip command_line)) as [| first args]; [done |].
  split; [done |].
  destruct (dict_get commands (lower first)) as [c |]; [| done].
  split; [| done]. intros Hnil. by destruct (call_prints c e args).
Qed.

Lemma process_command_exit
    (e : editor) (command_line first : string) (args : list string) :
  split (strip command_line) = first :: args -> lower first = "exit" ->
  process_command e command_line = ((e, [Say "Выход из редактора"]), Stop).
Proof. intros Hs Hw. unfold process_command. by rewrite Hs, Hw. Qed.

(** X7.  Whatever follows an [exit] line is never read: the session with
    further lines after it is the session that ends with it. *)
Theorem lines_after_exit_are_ignored
    (e : editor) (before after : list string)
    (exit_line first : string) (args : list string) :
  split (strip exit_line) = first :: args -> lower first = "exit" ->
  run_loop e (before ++ exit_line :: after)
  = run_loop e (before ++ [exit_line]).
Proof.
  intros Hs Hw. revert e.
  induction before as [| command_line before IH]; intros e; cbn [app run_loop].
  - by rewrite (process_command_exit e exit_line first args Hs Hw).
  - destruct (process_command e command_line) as [[e1 printed] [|]];
      [| done].
    by rewrite IH.
Qed.

(** A property every command line keeps holds at the end of a session. *)
Lemma run_loop_invariant (P : editor -> Prop) :
  (forall e command_line,
      P e -> P (fst (fst (process_command e command_line)))) ->
  forall inputs e, P e -> P (fst (run_loop e inputs)).
Proof.
  intros Hstep inputs.
  induction inputs as [| command_line rest IH]; intros e He; [done |].
  cbn [run_loop]. pose proof (Hstep e command_line He) as H1.
  destruct (process_command e command_line) as [[e1 printed] [|]];
    [| done].
  cbn [fst] in H1. specialize (IH e1 H1).
  by destruct (run_loop e1 rest).
Qed.

Lemma in_range_process_command (e : editor) (command_line : string) :
  in_range e -> in_range (fst (fst (process_command e command_line))).
Proof.
  intros [Hsize Hkeys]. unfold process_command.
  destruct (split (strip command_line)) as [| first args]; [done |].
  destruct (dict_get commands (lower first)) as [c |]; [| done].
  destruct c; cbn [call fst];
    rewrite ?list_shapes_state, ?show_shape_info_state; try done.
  - destruct (create_shape_cases e args)
      as [(printed & _ & -> & _) | [(k & n & nm & ex & _ & _ & ->)
                                   | (k & n & nm & s & _ & _ & ->)]];
      [done | done |].
    split; cbn [fst shapes next_id].
    + rewrite map_size_insert. destruct (shapes e !! next_id e); cbn; lia.
    + intros j t. rewrite lookup_insert. case_decide; [lia | apply Hkeys].
  - unfold delete_shape. destruct args as [| t r]; [done |].
    destruct (py_int t) as [k |]; [| done].
    destruct (shapes e !! k) as [s |] eqn:Hs; [| done].
    split; cbn [fst shapes next_id].
    + rewrite map_size_delete, Hs. lia.
    + intros j u. rewrite lookup_delete. case_decide; [done | apply Hkeys].
  - split; cbn [clear_shapes fst shapes next_id].
    + rewrite map_size_empty. lia.
    + intros j u. by rewrite lookup_empty.
Qed.

(** The ids a session gives out count up from the counter it starts
    with, one by one, and the counter ends right after the last. *)
Lemma run_loop_ids_count_up (inputs : list string) (e : editor) :
  next_id e <= next_id (fst (run_loop e inputs))
  /\ assigned_ids (snd (run_loop e inputs))
     = seqZ (next_id e) (next_id (fst (run_loop e inputs)) - next_id e).
Proof.
  revert e. induction inputs as [| command_line rest IH]; intros e.
  - cbn. split; [lia |]. by rewrite Z.sub_diag.
  - cbn [run_loop].
    pose proof (process_command_next_id e command_line) as Hstep.
    destruct (process_command e command_line) as [[e1 printed] ctl].
    cbn [fst snd] in Hstep. destruct ctl.
    + specialize (IH e1). destruct (run_loop e1 rest) as [e2 printed'].
      cbn [fst snd] in *. destruct IH as [Hle Hids].
      unfold assigned_ids in *. rewrite omap_app, Hids.
      destruct Hstep as [[-> Hn] | [-> Hn]]; rewrite Hn in *; cbn [app].
      * done.
      * split; [lia |].
        rewrite (seqZ_cons (next_id e)) by lia. do 2 f_equal; lia.
    + cbn [fst snd]. destruct Hstep as [[-> Hn] | [-> Hn]]; rewrite Hn.
      * split; [lia |]. by rewrite Z.sub_diag.
      * split; [lia |]. by replace (next_id e + 1 - next_id e) with 1 by lia.
Qed.

(** X8.  In a session on a fresh editor the shapes created get the ids 1, 2,
    3, ... in the order of their creation, whatever is deleted or
    cleared in between, and the counter ends one above their number. *)
Theorem session_ids_count_from_one (inputs : list string) :
  assigned_ids (snd (run inputs))
  = seqZ 1 (Z.of_nat (length (assigned_ids (snd (run inputs)))))
  /\ next_id (fst (run inputs))
     = 1 + Z.of_nat (length (assigned_ids (snd (run inputs)))).
Proof.
  unfold run.
  destruct (run_loop_ids_count_up inputs init) as [Hle Hids].
  destruct (run_loop init inputs) as [e printed].
  cbn [fst snd next_id init] in *.
  change (assigned_ids (Say "Векторный редактор CLI"
            :: Say "Введите 'help' для просмотра доступных команд"
            :: printed)) with (assigned_ids printed).
  rewrite Hids, length_seqZ.
  replace (Z.of_nat (Z.to_nat (next_id e - 1))) with (next_id e - 1) by lia.
  split; [done | lia].
Qed.

(** X9.  At the end of every session on a fresh editor each stored shape
    carries the key it is stored under as its id, the keys lie between 1
    and the counter, and there are fewer shapes than the counter says. *)
Theorem session_keeps_keys_in_range (inputs : list string) :
  reachable (fst (run inputs))
  /\ Z.of_nat (size (shapes (fst (run inputs)))) < next_id (fst (run inputs))
  /\ forall (k : Z) (s : shape),
       shapes (fst (run inputs)) !! k = Some s ->
       1 <= k < next_id (fst (run inputs)) /\ shape_id s = Some k.
Proof.
  assert (Hrun : fst (run inputs) = fst (run_loop init inputs))
    by (unfold run; by destruct (run_loop init inputs)).
  rewrite Hrun.
  assert (Hr : reachable (fst (run_loop init inputs))).
  { apply (run_loop_invariant reachable); [| apply reachable_init].
    intros e command_line He. by apply reachable_step. }
  assert (Hin : in_range (fst (run_loop init inputs))).
  { apply (run_loop_invariant in_range);
      [apply in_range_process_command |].
    split; [by cbn | intros k s; cbn; by rewrite lookup_empty]. }
  split; [exact Hr |]. destruct Hin as [Hsize Hkeys].
  split; [exact Hsize |].
  intros k s Hs. destruct (tracked_reachable _ Hr k s Hs) as [Hid Hlt].
  split; [| exact Hid]. split; [by eapply Hkeys | exact Hlt].
Qed.

End Sessions.

(** ** An id printed and read back *)

Lemma digit_is_plain (c : ascii) :
  is_digit c = true ->
  is_space c = false /\ Ascii.eqb c "_" = false
  /\ Ascii.eqb c "-" = false /\ Ascii.eqb c "+" = false.
Proof.
  intros Hd.
  destruct c as [[] [] [] [] [] [] [] []]; try discriminate Hd;
    repeat split; reflexivity.
Qed.

Lemma pretty_N_char_digit (d : N) :
  (d < 10)%N ->
  is_digit (pretty_N_char d) = true
  /\ digit_value (pretty_N_char d) = Z.of_N d.
Proof.
  intros Hd.
  assert (d = 0 \/ d = 1 \/ d = 2 \/ d = 3 \/ d = 4 \/ d = 5 \/ d = 6
          \/ d = 7 \/ d = 8 \/ d = 9)%N as Hcases by lia.
  repeat (destruct Hcases as [-> | Hcases]; [by split |]).
  by subst d.
Qed.

(** The decimal digits [pretty_N_go] puts in front of [s]: they are
    digits, at least one for a positive number and no more than the
    number needs, and read back they give the number. *)
Lemma pretty_N_go_digits (x : N) (s : string) :
  exists ds : list ascii,
    chars (pretty_N_go x s) = ds ++ chars s
    /\ Forall (fun c => is_digit c = true) ds
    /\ (x = 0%N -> ds = [])
    /\ ((0 < x)%N ->
        ds <> [] /\ 10 ^ Z.of_nat (length ds) <= 10 * Z.of_N x)
    /\ forall (acc : Z) (cnt : nat) (rest : list ascii),
         digitpart_from acc cnt (ds ++ rest)
         = digitpart_from (acc * 10 ^ Z.of_nat (length ds) + Z.of_N x)
                          (cnt + length ds) rest.
Proof.
  revert s. induction (N.lt_wf_0 x) as [x _ IH]. intros s.
  destruct (decide (x = 0%N)) as [-> | Hx].
  - exists []. rewrite pretty_N_go_0. split; [done |]. split; [done |].
    split; [done |]. split; [lia |].
    intros acc cnt rest. cbn [app length]. f_equal; lia.
  - rewrite pretty_N_go_step by lia.
    set (d := (x `mod` 10)%N).
    assert (Hd : (d < 10)%N) by (subst d; apply N.mod_lt; lia).
    destruct (pretty_N_char_digit d Hd) as [Hdigit Hvalue].
    destruct (IH (x `div` 10)%N ltac:(apply N.div_lt; lia)
                 (String (pretty_N_char d) s))
      as (ds & Hchars & Hall & Hzero & Hpos & Hread).
    assert (Hx10 : Z.of_N x = 10 * Z.of_N (x `div` 10) + Z.of_N d).
    { subst d. rewrite <- (N2Z.inj_mul 10), <- N2Z.inj_add.
      f_equal. apply N.div_mod. lia. }
    exists (ds ++ [pretty_N_char d]).
    split; [| split; [| split; [| split]]].
    + rewrite Hchars. cbn [chars list_ascii_of_string].
      by rewrite <- app_assoc.
    + apply Forall_app. split; [done | by constructor].
    + lia.
    + intros _. split; [by destruct ds |].
      rewrite length_app, Nat2Z.inj_add, Z.pow_add_r by lia.
      cbn [length]. change (10 ^ Z.of_nat 1) with 10.
      destruct (decide (x `div` 10 = 0)%N) as [Hq | Hq].
      * rewrite (Hzero Hq). cbn [length]. lia.
      * destruct (Hpos ltac:(lia)) as [_ Hbound]. lia.
    + intros acc cnt rest. rewrite <- app_assoc. cbn [app].
      rewrite Hread. cbn [digitpart_from]. rewrite Hdigit, Hvalue.
      rewrite length_app, Nat2Z.inj_add, Z.pow_add_r by lia.
      cbn [length]. change (10 ^ Z.of_nat 1) with 10.
      replace (S (cnt + length ds)) with (cnt + (length ds + 1))%nat by lia.
      f_equal. rewrite Hx10. ring.
Qed.

Lemma digit_is_no_c_space (c : ascii) :
  is_digit c = true -> is_c_space c = false.
Proof.
  intros Hd.
  destruct c as [[] [] [] [] [] [] [] []]; try discriminate Hd; reflexivity.
Qed.

Lemma lstrip_c_id (l : list ascii) :
  match l with c :: _ => is_c_space c = false | [] => True end ->
  lstrip_c l = l.
Proof. destruct l as [| c l]; [done |]. cbn. by intros ->. Qed.

Lemma drop_inner_underscores_digits (ds : list ascii) (prev : bool) :
  Forall (fun c => is_digit c = true) ds ->
  drop_inner_underscores prev ds = Some ds.
Proof.
  intros Hall. revert prev.
  induction Hall as [| c ds Hc _ IH]; intros prev; [done |].
  cbn [drop_inner_underscores].
  destruct (digit_is_plain c Hc) as (_ & -> & _). by rewrite IH.
Qed.

(** [int] reads a numeral of at most 4300 digits, with or without a
    minus sign in front, as the number its digits stand for. *)
Lemma py_int_numeral (s : string) (neg : bool) (ds : list ascii) (x : Z) :
  chars s = (if neg then ["-"%char] else []) ++ ds ->
  Forall (fun c => is_digit c = true) ds -> ds <> [] ->
  (length ds <= 4300)%nat ->
  digitpart ds = (x, length ds, []) ->
  py_int s = Some (if neg then - x else x).
Proof.
  intros Hs Hall Hne Hlen Hread. unfold py_int. rewrite Hs.
  assert (Hstrip : strip_c_chars ((if neg then ["-"%char] else []) ++ ds)
                   = (if neg then ["-"%char] else []) ++ ds).
  { unfold strip_c_chars.
    rewrite (lstrip_c_id ((if neg then ["-"%char] else []) ++ ds)).
    - rewrite rev_app_distr, lstrip_c_id; [by rewrite <- rev_app_distr,
                                              rev_involutive |].
      destruct (rev ds) as [| c r] eqn:Hr.
      + apply (f_equal (@rev ascii)) in Hr. rewrite rev_involutive in Hr.
        done.
      + cbn. assert (Hc : c ∈ ds).
        { apply list_elem_of_In, in_rev. rewrite Hr. by left. }
        rewrite Forall_forall in Hall.
        by apply digit_is_no_c_space, Hall.
    - destruct neg; [done |]. destruct ds as [| c r]; [done |].
      cbn. inversion Hall; subst. by apply digit_is_no_c_space. }
  rewrite Hstrip.
  assert (Hsign : sign ((if neg then ["-"%char] else []) ++ ds) = (neg, ds)).
  { destruct neg; [done |]. destruct ds as [| c r]; [done |].
    cbn. inversion Hall; subst.
    by destruct (digit_is_plain c) as (_ & _ & -> & ->). }
  rewrite Hsign, (drop_inner_underscores_digits ds false Hall), Hread.
  destruct (Nat.eqb_spec (length ds) 0) as [Hz | _].
  { by destruct ds. }
  unfold int_max_str_digits.
  by destruct (Nat.ltb_spec 4300 (length ds)); [lia |].
Qed.

(** A number below [10 ^ 4300] has at most 4300 digits. *)
Lemma digits_within_limit (len : nat) (x : Z) :
  10 ^ Z.of_nat len <= 10 * x -> x < 10 ^ 4300 -> (len <= 4300)%nat.
Proof.
  intros Hlen Hx.
  assert (Hlt : 10 ^ Z.of_nat len < 10 ^ Z.succ 4300).
  { rewrite Z.pow_succ_r by done.
    remember (10 ^ 4300) as bound. lia. }
  pose proof (proj2 (Z.pow_lt_mono_r_iff 10 (Z.of_nat len) (Z.succ 4300)
                       ltac:(done) ltac:(done)) Hlt).
  lia.
Qed.

(** [int(str(n))] is [n], as long as [n] has no more than 4300 digits. *)
Lemma py_int_str_of_int (n : Z) :
  - 10 ^ 4300 < n < 10 ^ 4300 -> py_int (str_of_int n) = Some n.
Proof.
  intros [Hlow Hhigh]. unfold str_of_int.
  destruct n as [| p | p]; [reflexivity | |].
  - unfold pretty, pretty_Z, pretty, pretty_positive, pretty, pretty_N.
    rewrite decide_False by done.
    destruct (pretty_N_go_digits (N.pos p) "")
      as (ds & Hchars & Hall & _ & Hpos & Hread).
    destruct (Hpos ltac:(done)) as [Hne Hbound].
    rewrite app_nil_r in Hchars.
    apply (py_int_numeral _ false ds (Z.pos p)); try done.
    + by apply (digits_within_limit _ (Z.pos p)).
    + unfold digitpart. specialize (Hread 0 0%nat []).
      rewrite app_nil_r in Hread. by rewrite Hread.
  - unfold pretty, pretty_Z, pretty, pretty_positive, pretty, pretty_N.
    rewrite decide_False by done.
    destruct (pretty_N_go_digits (N.pos p) "")
      as (ds & Hchars & Hall & _ & Hpos & Hread).
    destruct (Hpos ltac:(done)) as [Hne Hbound].
    rewrite app_nil_r in Hchars.
    apply (py_int_numeral _ true ds (Z.pos p)); try done.
    + change (chars ("-" +:+ pretty_N_go (N.pos p) ""))
        with ("-"%char :: chars (pretty_N_go (N.pos p) "")).
      by rewrite Hchars.
    + apply (digits_within_limit _ (Z.pos p)); [done |].
      remember (10 ^ 4300) as bound. lia.
    + unfold digitpart. specialize (Hread 0 0%nat []).
      rewrite app_nil_r in Hread. by rewrite Hread.
Qed.

Section FoundByItsId.
Context `{ShapeLib}.

(** X10.  A shape just created is found under the id it was given: [info]
    with that id, written as [str] prints it, shows the mapping of the
    stored shape and changes nothing. *)
Theorem created_shape_is_found_by_info
    (e : editor) (args rest : list string)
    (c : kind) (numeric : list pyval) (name : string) (s : shape) :
  - 10 ^ 4300 < next_id e < 10 ^ 4300 ->
  parse_create e args = Construct c numeric name ->
  shape_class c numeric name = Ok s ->
  show_shape_info (fst (create_shape e args))
    (str_of_int (next_id e) :: rest)
  = (fst (create_shape e args),
     [ Say (nl +:+ "Информация о фигуре " +:+ str_of_int (next_id e)
            +:+ ":");
       SayInfo (get_info (set_id (next_id e) s)) ]).
Proof.
  intros Hn Hp Hs. unfold show_shape_info.
  rewrite (py_int_str_of_int _ Hn).
  unfold create_shape. rewrite Hp, Hs. cbn [fst shapes].
  by rewrite lookup_insert_eq.
Qed.

(** X11.  In a session, creating a shape and deleting it by its id gives the
    collection back as it was, while the counter stays one higher. *)
Theorem create_then_delete_restores_the_collection
    (e : editor) (args rest : list string)
    (c : kind) (numeric : list pyval) (name : string) (s : shape) :
  reachable e ->
  next_id e < 10 ^ 4300 ->
  parse_create e args = Construct c numeric name ->
  shape_class c numeric name = Ok s ->
  delete_shape (fst (create_shape e args))
    (str_of_int (next_id e) :: rest)
  = ({| shapes := shapes e; next_id := next_id e + 1 |},
     [SayDeleted (set_id (next_id e) s)]).
Proof.
  intros Hr Hn Hp Hs.
  pose proof (tracked_reachable e Hr) as He.
  assert (Hfree : shapes e !! next_id e = None).
  { destruct (shapes e !! next_id e) as [t |] eqn:Ht; [| done].
    destruct (He _ _ Ht). lia. }
  assert (Hpos : 1 <= next_id e).
  { clear Hn Hp Hs Hfree He. induction Hr as [| e0 command_line _ IH];
      [done |].
    destruct (process_command_next_id e0 command_line) as [[_ ->] | [_ ->]];
      lia. }
  unfold delete_shape. rewrite py_int_str_of_int.
  2:{ split; [| done]. remember (10 ^ 4300) as bound.
      assert (0 < bound) by (subst bound; by apply Z.pow_pos_nonneg).
      lia. }
  unfold create_shape. rewrite Hp, Hs. cbn [fst shapes next_id].
  rewrite lookup_insert_eq. by rewrite delete_insert_id.
Qed.

(** X12.  A type word that is none of the eight registered names, compared
    without regard to letter case, is refused: [create_shape] prints the
    word in lower case and the hint, and changes nothing.  A registered
    name never gets this answer. *)
Theorem unknown_type_is_refused
    (e : editor) (type_token : string) (rest : list string) :
  lower type_token ∉
    ["point"; "line"; "circle"; "square"; "rectangle"; "polygon";
     "parallelepiped"; "tetrahedron"]
  <-> create_shape e (type_token :: rest)
      = (e,
         [ Say ("Ошибка: Неизвестный тип фигуры '" +:+ lower type_token
                +:+ "'");
           Say "Используйте 'help' для просмотра доступных типов фигур" ]).
Proof.
  unfold create_shape, parse_create.
  destruct (dict_get shape_types (lower type_token)) as [info |] eqn:Hd.
  - pose proof (shape_types_keys _ _ Hd) as Hk.
    split.
    + intros Hnot. exfalso. apply Hnot.
      repeat (apply elem_of_cons in Hk as [[= _ -> _ _] | Hk];
              [rewrite !elem_of_cons; tauto |]).
      by apply elem_of_nil in Hk.
    + destruct (_ <? _).
      * by intros [=].
      * destruct (numeric_params _ _); [| done].
        by destruct (shape_class _ _ _).
  - split; [done |]. intros _ Hin.
    unfold shape_types, dict_get in Hd.
    repeat (case_bool_decide; [done |]).
    rewrite !elem_of_cons in Hin.
    repeat (destruct Hin as [Hin | Hin]; [done |]).
    by apply elem_of_nil in Hin.
Qed.

End FoundByItsId.

(** On [create point 1 2] in a fresh editor: [info 1] shows the point. *)
Lemma created_shape_is_found_by_info_witness :
  - 10 ^ 4300 < next_id init < 10 ^ 4300
  /\ snd (show_shape_info (fst (create_shape init ["point"; "1"; "2"]))
            [str_of_int 1])
     = [ Say (nl +:+ "Информация о фигуре " +:+ str_of_int 1 +:+ ":");
         SayInfo
           (get_info
              (set_id 1
                 {| shape_id := None; shape_name := "Point 1";
                    shape_geom :=
                      GPoint
                        (VFloat (S754_finite false 4503599627370496 (-52)))
                        (VFloat (S754_finite false 4503599627370496 (-51)))
                 |})) ].
Proof.
  assert (Hn : - 10 ^ 4300 < next_id init < 10 ^ 4300)
    by (split; vm_compute; reflexivity).
  split; [exact Hn |].
  exact (f_equal snd
           (created_shape_is_found_by_info init ["point"; "1"; "2"] []
              Point
              [ VFloat (S754_finite false 4503599627370496 (-52));
                VFloat (S754_finite false 4503599627370496 (-51)) ]
              "Point 1"
              {| shape_id := None; shape_name := "Point 1";
                 shape_geom :=
                   GPoint (VFloat (S754_finite false 4503599627370496 (-52)))
                     (VFloat (S754_finite false 4503599627370496 (-51))) |}
              Hn eq_refl eq_refl)).
Defined.

(** On [create point 1 2] and [delete 1] in a fresh editor: nothing is
    stored afterwards and the counter is 2. *)
Lemma create_then_delete_restores_the_collection_witness :
  reachable init
  /\ next_id init < 10 ^ 4300
  /\ fst (delete_shape (fst (create_shape init ["point"; "1"; "2"]))
            [str_of_int 1])
     = {| shapes := ∅; next_id := 2 |}.
Proof.
  assert (Hn : next_id init < 10 ^ 4300) by (vm_compute; reflexivity).
  split; [apply reachable_init |]. split; [exact Hn |].
  exact (f_equal fst
           (create_then_delete_restores_the_collection init
              ["point"; "1"; "2"] [] Point
              [ VFloat (S754_finite false 4503599627370496 (-52));
                VFloat (S754_finite false 4503599627370496 (-51)) ]
              "Point 1"
              {| shape_id := None; shape_name := "Point 1";
                 shape_geom :=
                   GPoint (VFloat (S754_finite false 4503599627370496 (-52)))
                     (VFloat (S754_finite false 4503599627370496 (-51))) |}
              reachable_init Hn eq_refl eq_refl)).
Defined.

(** ** White space and the end of a session *)

Lemma split_aux_front_blank (front l : list ascii) :
  Forall (fun c => is_space c = true) front ->
  split_aux [] (front ++ l) = split_aux [] l.
Proof.
  induction 1 as [| c front Hc _ IH]; [done |].
  cbn [app split_aux]. by rewrite Hc.
Qed.

Lemma split_aux_blank (back cur : list ascii) :
  Forall (fun c => is_space c = true) back ->
  split_aux cur back = split_aux cur [].
Proof.
  intros Hb. revert cur. induction Hb as [| c back Hc _ IH]; [done |].
  intros cur. cbn [split_aux]. rewrite Hc.
  destruct cur as [| d cur]; [apply (IH []) |].
  by rewrite (IH []).
Qed.

Lemma split_aux_back_blank (l back cur : list ascii) :
  Forall (fun c => is_space c = true) back ->
  split_aux cur (l ++ back) = split_aux cur l.
Proof.
  intros Hb. revert cur. induction l as [| c l IH]; intros cur.
  - by apply split_aux_blank.
  - cbn [app split_aux]. destruct (is_space c); [| apply IH].
    destruct cur; by rewrite IH.
Qed.

(** [strip] before [split] changes nothing. *)
Lemma split_strip (command_line : string) :
  split (strip command_line) = split command_line.
Proof.
  unfold split, strip. rewrite chars_text.
  destruct (strip_chars_spec (chars command_line))
    as (front & back & Hl & Hf & Hb).
  rewrite Hl at 2.
  by rewrite split_aux_front_blank, split_aux_back_blank.
Qed.

Section Words.
Context `{ShapeLib}.

(** X13.  A command line is read as its words: two lines with the same
    arguments whose command words differ at most in letter case are
    answered alike, however the words are spaced. *)
Theorem words_decide_the_answer
    (e : editor) (line1 line2 first1 first2 : string)
    (args : list string) :
  split line1 = first1 :: args ->
  split line2 = first2 :: args ->
  lower first1 = lower first2 ->
  process_command e line1 = process_command e line2.
Proof.
  intros H1 H2 Hw. unfold process_command.
  by rewrite !split_strip, H1, H2, Hw.
Qed.


End Words.

(** ** The further theorems on concrete sessions *)

(** The list of a fresh editor and of the editor that holds one point. *)
Lemma list_shapes_lists_the_stored_witness :
  snd (list_shapes init []) = [Say "Список фигур пуст"]
  /\ shapes (fst (create_shape init ["point"; "1"; "2"])) <> ∅
  /\ exists entries : list (Z * shape),
       snd (list_shapes (fst (create_shape init ["point"; "1"; "2"])) [])
       = Say (nl +:+ "Список фигур:")
         :: map (fun entry => SayListed (fst entry) (snd entry)) entries
       /\ length entries
          = size (shapes (fst (create_shape init ["point"; "1"; "2"]))).
Proof.
  assert (Hne : shapes (fst (create_shape init ["point"; "1"; "2"])) <> ∅).
  { intros Heq. apply (f_equal (fun m => m !! 1)) in Heq.
    vm_compute in Heq. discriminate Heq. }
  split.
  { destruct (list_shapes_lists_the_stored init []) as (_ & Hempty & _).
    exact (Hempty eq_refl). }
  split; [exact Hne |].
  destruct (list_shapes_lists_the_stored
              (fst (create_shape init ["point"; "1"; "2"])) [])
    as (_ & _ & Hsome).
  destruct (Hsome Hne) as (entries & Hlines & Hlen & _).
  exists entries. split; [exact Hlines | exact Hlen].
Defined.

(** [clear] on the editor that holds one point, then [info 1]. *)
Lemma clear_shapes_empties_witness :
  py_int "1" = Some 1
  /\ snd (show_shape_info
            (fst (clear_shapes (fst (create_shape init ["point"; "1"; "2"]))
                    []))
            ["1"])
     = [Say ("Ошибка: Фигура с ID " +:+ str_of_int 1 +:+ " не найдена")].
Proof.
  split; [reflexivity |].
  destruct (clear_shapes_empties
              (fst (create_shape init ["point"; "1"; "2"])) [] [])
    as (_ & _ & _ & Hfind).
  destruct (Hfind "1" [] 1 eq_refl) as [Hinfo _].
  exact (f_equal snd Hinfo).
Defined.

(** [delete 1] twice on the editor that holds one point. *)
Lemma delete_shape_twice_witness :
  py_int "1" = Some 1
  /\ snd (delete_shape
            (fst (delete_shape (fst (create_shape init ["point"; "1"; "2"]))
                    ["1"]))
            ["1"])
     = [Say ("Ошибка: Фигура с ID " +:+ str_of_int 1 +:+ " не найдена")].
Proof.
  split; [reflexivity |].
  destruct (delete_shape_twice
              (fst (create_shape init ["point"; "1"; "2"])) "1" [] [] 1
              eq_refl) as (_ & Hagain & _).
  exact (f_equal snd Hagain).
Defined.

(** A line of two spaces. *)
Lemma only_blank_lines_are_silent_witness :
  Forall (fun c => is_space c = true) (chars "  ")
  /\ process_command init "  " = ((init, []), Continue).
Proof.
  assert (Hb : Forall (fun c => is_space c = true) (chars "  "))
    by (repeat constructor).
  split; [exact Hb |].
  destruct (only_blank_lines_are_silent init "  ") as [Hsilent _].
  exact (Hsilent Hb).
Defined.

(** [EXIT now] stops. *)
Lemma only_exit_stops_witness :
  snd (process_command init "  EXIT now") = Stop
  /\ process_command init "  EXIT now"
     = ((init, [Say "Выход из редактора"]), Stop).
Proof.
  split; [reflexivity |].
  destruct (only_exit_stops init "  EXIT now") as [_ Hstop].
  exact (Hstop eq_refl).
Defined.

(** [create point 1 2] changes the fresh editor; its word is [create]. *)
Lemma only_three_commands_change_the_editor_witness :
  fst (fst (process_command init "create point 1 2")) <> init
  /\ exists first args,
       split (strip "create point 1 2") = first :: args
       /\ lower first ∈ ["create"; "delete"; "clear"].
Proof.
  assert (Hne : fst (fst (process_command init "create point 1 2")) <> init).
  { intros Heq. apply (f_equal next_id) in Heq. discriminate Heq. }
  split; [exact Hne |].
  exact (only_three_commands_change_the_editor init "create point 1 2" Hne).
Defined.

(** A creation after [Exit] is not carried out. *)
Lemma lines_after_exit_are_ignored_witness :
  split (strip "Exit") = ["Exit"]
  /\ lower "Exit" = "exit"
  /\ run_loop init (["create point 1 2"] ++ "Exit" :: ["create circle 0 0 1"])
     = run_loop init (["create point 1 2"] ++ ["Exit"]).
Proof.
  split; [reflexivity |]. split; [reflexivity |].
  exact (lines_after_exit_are_ignored init ["create point 1 2"]
           ["create circle 0 0 1"] "Exit" "Exit" [] eq_refl eq_refl).
Defined.

(** The session [create point 1 2]: the point is stored under 1. *)
Lemma session_keeps_keys_in_range_witness :
  shapes (fst (run ["create point 1 2"])) !! 1
  = Some {| shape_id := Some 1; shape_name := "Point 1";
            shape_geom :=
              GPoint (VFloat (S754_finite false 4503599627370496 (-52)))
                (VFloat (S754_finite false 4503599627370496 (-51))) |}
  /\ 1 <= 1 < next_id (fst (run ["create point 1 2"])).
Proof.
  split; [reflexivity |].
  destruct (session_keeps_keys_in_range ["create point 1 2"])
    as (_ & _ & Hkeys).
  destruct (Hkeys 1 _ eq_refl) as [Hrange _]. exact Hrange.
Defined.

(** [create Hexagon 1 2] is refused with the word in lower case. *)
Lemma unknown_type_is_refused_witness :
  (lower "Hexagon" ∉
     ["point"; "line"; "circle"; "square"; "rectangle"; "polygon";
      "parallelepiped"; "tetrahedron"])
  /\ create_shape init ["Hexagon"; "1"; "2"]
     = (init,
        [ Say ("Ошибка: Неизвестный тип фигуры '" +:+ lower "Hexagon"
               +:+ "'");
          Say "Используйте 'help' для просмотра доступных типов фигур" ]).
Proof.
  destruct (unknown_type_is_refused init "Hexagon" ["1"; "2"])
    as [_ Hback].
  split; [exact (Hback eq_refl) | reflexivity].
Defined.

(** Two spellings of the same creation. *)
Lemma words_decide_the_answer_witness :
  split "create  point 1 2" = ["create"; "point"; "1"; "2"]
  /\ split " CREATE point 1  2 " = ["CREATE"; "point"; "1"; "2"]
  /\ lower "create" = lower "CREATE"
  /\ process_command init "create  point 1 2"
     = process_command init " CREATE point 1  2 ".
Proof.
  split; [reflexivity |]. split; [reflexivity |]. split; [reflexivity |].
  exact (words_decide_the_answer init "create  point 1 2"
           " CREATE point 1  2 " "create" "CREATE" ["point"; "1"; "2"]
           eq_refl eq_refl eq_refl).
Defined.

